(** * Call-center complaint dashboard: record store, reporting and export

    A shallow embedding of [main.py]: the SQLite table [complaints], the
    bootstrap sample, the dashboard aggregates computed with pandas, the CSV
    and spreadsheet exports, and the administration actions.  One call of
    [main] is one Streamlit run of the script.

    Text is kept as [string], read as the UTF-8 bytes of the Python text.
    The three numeric columns hold integers in every row the script builds
    (integer literals in the sample, integer-bounded widgets in the form), so
    they are kept in [Z]; averages are exact rationals where pandas has the
    nearest double. *)

From Stdlib Require Import ZArith QArith Qabs List String Ascii Bool Lia.
From Stdlib Require Import Sorted DecimalString DecimalZ.
Import ListNotations.

Local Open Scope string_scope.
Local Open Scope list_scope.
Local Open Scope nat_scope.

(** ** Schema *)

(** A row of a frame built in memory: the eight columns of
    [load_sample_data] and of the form's [new_data].  The three numeric
    columns hold integers, as the sample and the integer widgets of the form
    give them; a REAL of the table that is no integer, which only another
    program could have stored, is not represented. *)
Record Row := mkRow {
  timestamp : string;
  location : string;
  complaint_type : string;
  resolution_time : Z;
  satisfaction_score : Z;
  agent_name : string;
  call_duration : Z;
  status : string
}.

(** A row of the table [complaints]: the key [id] and the eight columns. *)
Record Stored := mkStored {
  id : Z;
  fields : Row
}.

(** The two shapes of [df] in [main]: the result of
    [pd.read_sql('SELECT * FROM complaints', conn)] has nine columns, its
    REAL columns are float64; a frame built by [pd.DataFrame] has the eight
    columns of [Row] and int64 numbers. *)
Inductive DataFrame :=
| read_frame (rows : list Stored)
| new_frame (rows : list Row).

Definition records (df : DataFrame) : list Row :=
  match df with
  | read_frame rows => map fields rows
  | new_frame rows => rows
  end.

Definition len (df : DataFrame) : nat := List.length (records df).

(** ** Clock *)

(** A moment as [datetime.now()] returns it, to the microsecond. *)
Record datetime := mkDatetime {
  year : nat; month : nat; day : nat;
  hour : nat; minute : nat; second : nat;
  microsecond : N
}.

(** The moment without its microseconds: what the format below keeps. *)
Definition to_second (dt : datetime) : datetime :=
  mkDatetime (year dt) (month dt) (day dt)
             (hour dt) (minute dt) (second dt) 0.

Definition digit (n : nat) : ascii := ascii_of_nat (48 + n mod 10).

Definition pad2 (n : nat) : string :=
  String (digit (n / 10)) (String (digit n) EmptyString).

Definition pad4 (n : nat) : string :=
  String (digit (n / 1000)) (String (digit (n / 100)) (pad2 n)).

(** [dt.strftime("%Y-%m-%d %H:%M:%S")]: the microseconds are not
    written. *)
Definition strftime (dt : datetime) : string :=
  (pad4 (year dt) ++ "-" ++ pad2 (month dt) ++ "-" ++ pad2 (day dt) ++ " "
   ++ pad2 (hour dt) ++ ":" ++ pad2 (minute dt) ++ ":" ++ pad2 (second dt))%string.

(** ** The database file *)

(** The table and the counter SQLite keeps for an AUTOINCREMENT key in
    [sqlite_sequence]: the largest rowid the table has ever held. *)
Record Table := mkTable {
  complaints : list Stored;
  sqlite_sequence : Z
}.

Definition empty_table : Table := mkTable [] 0.

(** [init_db]: CREATE TABLE IF NOT EXISTS.  [None] is a database file
    without the table. *)
Definition init_db (file : option Table) : Table :=
  match file with
  | Some t => t
  | None => empty_table
  end.

(** The largest 64-bit rowid. *)
Definition max_rowid : Z := 9223372036854775807.

Definition largest_id (rows : list Stored) : Z :=
  fold_right (fun r m => Z.max (id r) m) 0%Z rows.

(** AUTOINCREMENT: one more than the largest rowid ever held. *)
Definition next_rowid (t : Table) : Z :=
  (Z.max (sqlite_sequence t) (largest_id (complaints t)) + 1)%Z.

Inductive Exception :=
| OperationalError   (* sqlite3: database or disk is full *)
| DateParseError.    (* pandas: to_datetime on a string that is no date *)

Inductive Result (A : Type) :=
| Ok (a : A)
| Raise (e : Exception).
Arguments Ok {A} a.
Arguments Raise {A} e.

(** INSERT of one row without [id].  The numbers are kept as given, which
    is what SQLite does for a [storable] row (below): a score beyond 64 bits
    makes sqlite3 raise OverflowError, and a time beyond 2^53 in size is
    held as the nearest double. *)
Definition insert_row (t : Table) (r : Row) : Result Table :=
  let i := next_rowid t in
  if (i <=? max_rowid)%Z
  then Ok (mkTable (complaints t ++ [mkStored i r]) i)
  else Raise OperationalError.

(** [df.to_sql('complaints', conn, if_exists='append', index=False)]: the
    rows are inserted in order inside one transaction; a failure leaves the
    caller with the table as it was. *)
Fixpoint to_sql (t : Table) (rows : list Row) : Result Table :=
  match rows with
  | [] => Ok t
  | r :: rest =>
      match insert_row t r with
      | Ok t' => to_sql t' rest
      | Raise e => Raise e
      end
  end.

(** [DELETE FROM complaints]: the rows go, [sqlite_sequence] stays. *)
Definition delete_from_complaints (t : Table) : Table :=
  mkTable [] (sqlite_sequence t).

(** ** Effects: the database, the clock *)

Record World := mkWorld {
  db : Table;
  clock : nat -> datetime;   (* the reading of each successive call *)
  ticks : nat                (* calls of [datetime.now()] so far *)
}.

Definition M (A : Type) : Type := World -> Result A * World.

Definition ret {A} (a : A) : M A := fun w => (Ok a, w).

Definition bind {A B} (m : M A) (k : A -> M B) : M B :=
  fun w =>
    match m w with
    | (Ok a, w') => k a w'
    | (Raise e, w') => (Raise e, w')
    end.

Notation "x <- m ;; k" := (bind m (fun x => k))
  (at level 61, m at next level, right associativity).
Notation "m ;;; k" := (bind m (fun _ => k))
  (at level 61, right associativity).

Definition now : M datetime :=
  fun w => (Ok (clock w (ticks w)), mkWorld (db w) (clock w) (S (ticks w))).

(** [pd.read_sql('SELECT * FROM complaints', conn)] *)
Definition read_sql : M DataFrame :=
  fun w => (Ok (read_frame (complaints (db w))), w).

Definition insert_data (df : list Row) : M unit :=
  fun w =>
    match to_sql (db w) df with
    | Ok t => (Ok tt, mkWorld t (clock w) (ticks w))
    | Raise e => (Raise e, w)
    end.

Definition clear_all : M unit :=
  fun w => (Ok tt, mkWorld (delete_from_complaints (db w)) (clock w) (ticks w)).

Definition sample_rows (ts : string) : list Row :=
  [ mkRow ts "NSW" "Billing" 15 4 "Agent1" 120 "Resolved";
    mkRow ts "QLD" "Service" 25 3 "Agent2" 180 "Pending";
    mkRow ts "VIC" "Product" 10 5 "Agent3" 90 "Resolved" ].

Definition load_sample_data : M (list Row) :=
  dt <- now ;; ret (sample_rows (strftime dt)).

(** ** Aggregation *)

(** A pandas float: [nan] is what an aggregate over nothing gives. *)
Inductive number :=
| nan
| num (q : Q).

Definition total (xs : list Z) : Z := fold_right Z.add 0%Z xs.

(** [Series.mean()]: the sum over the count, [nan] for an empty series.
    The quotient is kept exact here; pandas returns the double nearest to
    it, and adds up in doubles, which is exact for [summable] values
    (below).  [mean_in_double] states what holds of both. *)
Definition mean (xs : list Z) : number :=
  match xs with
  | [] => nan
  | _ :: _ => num (inject_Z (total xs) / inject_Z (Z.of_nat (List.length xs)))
  end.

(** [df.groupby(key)], keys sorted ascending and each key once, every group
    holding its rows in frame order. *)
Section GroupBy.
Context {K : Type} (ltb eqb : K -> K -> bool).

Fixpoint insert_key (k : K) (ks : list K) : list K :=
  match ks with
  | [] => [k]
  | x :: rest =>
      if ltb k x then k :: ks
      else if eqb k x then ks
      else x :: insert_key k rest
  end.

Definition sorted_keys (ks : list K) : list K :=
  fold_right insert_key [] ks.

Definition groupby {A : Type} (key : A -> K) (rows : list A)
  : list (K * list A) :=
  map (fun k => (k, filter (fun r => eqb (key r) k) rows))
      (sorted_keys (map key rows)).
End GroupBy.

Record AgentStats := mkAgentStats {
  agent : string;
  mean_resolution_time : number;
  mean_satisfaction_score : number;
  mean_call_duration : number;
  cases_handled : nat
}.

(** [df.groupby('agent_name').agg({... 'mean', 'timestamp': 'count'})
       .rename(columns={'timestamp': 'cases_handled'})] *)
Definition agent_stats (df : DataFrame) : list AgentStats :=
  map (fun g : string * list Row =>
         mkAgentStats (fst g)
           (mean (map resolution_time (snd g)))
           (mean (map satisfaction_score (snd g)))
           (mean (map call_duration (snd g)))
           (List.length (snd g)))
      (groupby String.ltb String.eqb agent_name (records df)).

(** *** Calendar dates *)

Record date := mkDate {
  date_year : nat;
  date_month : nat;
  date_day : nat
}.

Definition date_ltb (a b : date) : bool :=
  (date_year a <? date_year b)
  || ((date_year a =? date_year b)
      && ((date_month a <? date_month b)
          || ((date_month a =? date_month b) && (date_day a <? date_day b)))).

Definition date_eqb (a b : date) : bool :=
  (date_year a =? date_year b) && (date_month a =? date_month b)
  && (date_day a =? date_day b).

Definition is_leap (y : nat) : bool :=
  ((y mod 4 =? 0) && negb (y mod 100 =? 0)) || (y mod 400 =? 0).

Definition days_in_month (y m : nat) : nat :=
  match m with
  | 2 => if is_leap y then 29 else 28
  | 4 | 6 | 9 | 11 => 30
  | _ => 31
  end.

(** The datetimes pandas holds at nanosecond resolution in every month of
    the year. *)
Definition valid_datetime (dt : datetime) : bool :=
  (1678 <=? year dt) && (year dt <=? 2261)
  && (1 <=? month dt) && (month dt <=? 12)
  && (1 <=? day dt) && (day dt <=? days_in_month (year dt) (month dt))
  && (hour dt <? 24) && (minute dt <? 60) && (second dt <? 60)
  && (microsecond dt <? 1000000)%N.

Definition digit_value (c : ascii) : option nat :=
  let n := nat_of_ascii c in
  if (48 <=? n) && (n <=? 57) then Some (n - 48) else None.

Fixpoint digits (n acc : nat) (s : string) : option (nat * string) :=
  match n with
  | 0 => Some (acc, s)
  | S n' =>
      match s with
      | String c rest =>
          match digit_value c with
          | Some d => digits n' (10 * acc + d) rest
          | None => None
          end
      | EmptyString => None
      end
  end.

Definition expect (c : ascii) (s : string) : option string :=
  match s with
  | String a rest => if Ascii.eqb a c then Some rest else None
  | EmptyString => None
  end.

Definition and_then {A B} (o : option A) (k : A -> option B) : option B :=
  match o with
  | Some a => k a
  | None => None
  end.

(** [pd.to_datetime] on the text [strftime] writes; [None] is a text this
    development does not read as a datetime.  pandas reads more forms than
    this one and turns an empty timestamp into NaT, so the function agrees
    with pandas on the texts it reads and says nothing of the others. *)
Definition to_datetime (s : string) : option datetime :=
  and_then (digits 4 0 s) (fun '(y, s) =>
  and_then (expect "-" s) (fun s =>
  and_then (digits 2 0 s) (fun '(mo, s) =>
  and_then (expect "-" s) (fun s =>
  and_then (digits 2 0 s) (fun '(d, s) =>
  and_then (expect " " s) (fun s =>
  and_then (digits 2 0 s) (fun '(h, s) =>
  and_then (expect ":" s) (fun s =>
  and_then (digits 2 0 s) (fun '(mi, s) =>
  and_then (expect ":" s) (fun s =>
  and_then (digits 2 0 s) (fun '(se, s) =>
    let dt := mkDatetime y mo d h mi se 0 in
    match s with
    | EmptyString => if valid_datetime dt then Some dt else None
    | String _ _ => None
    end))))))))))).

(** [.dt.date] *)
Definition dt_date (dt : datetime) : date :=
  mkDate (year dt) (month dt) (day dt).

Definition to_date (s : string) : option date :=
  option_map dt_date (to_datetime s).

(** [df['date'] = pd.to_datetime(df['timestamp']).dt.date]: every row with
    its date, or nothing when one timestamp is not read. *)
Fixpoint with_date (rows : list Row) : option (list (Row * date)) :=
  match rows with
  | [] => Some []
  | r :: rest =>
      match to_date (timestamp r), with_date rest with
      | Some d, Some ds => Some ((r, d) :: ds)
      | _, _ => None
      end
  end.

(** [df.groupby('date').size().reset_index(name='count')], for a frame
    whose timestamps are all [readable] (below); over another frame pandas
    may raise, read a date or drop the row, and the model raises. *)
Definition daily_counts (df : DataFrame) : Result (list (date * nat)) :=
  match with_date (records df) with
  | Some rows =>
      Ok (map (fun g : date * list (Row * date) => (fst g, List.length (snd g)))
              (groupby date_ltb date_eqb snd rows))
  | None => Raise DateParseError
  end.

(** ** Export *)

(** A value of a frame with the dtype of its column. *)
Inductive cell :=
| int64 (z : Z)
| float64 (z : Z)
| text (s : string).

Definition row_columns : list string :=
  [ "timestamp"; "location"; "complaint_type"; "resolution_time";
    "satisfaction_score"; "agent_name"; "call_duration"; "status" ].

Definition columns (df : DataFrame) : list string :=
  match df with
  | read_frame _ => "id" :: row_columns
  | new_frame _ => row_columns
  end.

Definition values (df : DataFrame) : list (list cell) :=
  match df with
  | read_frame rows =>
      map (fun s =>
             let r := fields s in
             [ int64 (id s); text (timestamp r); text (location r);
               text (complaint_type r); float64 (resolution_time r);
               int64 (satisfaction_score r); text (agent_name r);
               float64 (call_duration r); text (status r) ]) rows
  | new_frame rows =>
      map (fun r =>
             [ text (timestamp r); text (location r);
               text (complaint_type r); int64 (resolution_time r);
               int64 (satisfaction_score r); text (agent_name r);
               int64 (call_duration r); text (status r) ]) rows
  end.

Definition fmt_int (z : Z) : string := NilZero.string_of_int (Z.to_int z).

(** The text of an integral double below 1e16, where Python switches to
    exponent notation; the widgets stop at 3600. *)
Definition fmt_float (z : Z) : string := (fmt_int z ++ ".0")%string.

Definition render (c : cell) : string :=
  match c with
  | int64 z => fmt_int z
  | float64 z => fmt_float z
  | text s => s
  end.

Definition comma : ascii := ","%char.
Definition quotechar : ascii := "034"%char.
Definition LF : ascii := "010"%char.
Definition CR : ascii := "013"%char.

(** The characters that make the csv writer quote a field.  From Python
    3.13 on a carriage return is one of them; before, with the line feed
    [to_csv] ends its lines with, it is written bare. *)
Definition special (c : ascii) : bool :=
  Ascii.eqb c comma || Ascii.eqb c quotechar || Ascii.eqb c LF || Ascii.eqb c CR.

Fixpoint needs_quote (s : string) : bool :=
  match s with
  | EmptyString => false
  | String c rest => special c || needs_quote rest
  end.

(** Every quote character of the field doubled. *)
Fixpoint escape (s : string) : string :=
  match s with
  | EmptyString => EmptyString
  | String c rest =>
      if Ascii.eqb c quotechar
      then String quotechar (String quotechar (escape rest))
      else String c (escape rest)
  end.

(** [csv.QUOTE_MINIMAL], the quoting [to_csv] asks of the csv writer. *)
Definition quote_field (s : string) : string :=
  if needs_quote s
  then String quotechar (escape s ++ String quotechar EmptyString)%string
  else s.

Fixpoint join (fs : list string) : string :=
  match fs with
  | [] => EmptyString
  | [f] => f
  | f :: rest => (f ++ String comma (join rest))%string
  end.

Definition csv_line (fs : list string) : string :=
  (join (map quote_field fs) ++ String LF EmptyString)%string.

(** [df.to_csv(index=False)] *)
Definition to_csv (df : DataFrame) : string :=
  (csv_line (columns df)
   ++ String.concat EmptyString
        (map (fun r => csv_line (map render r)) (values df)))%string.

(** [.encode('utf-8')]; the text is already kept as its UTF-8 bytes. *)
Definition encode_utf8 (s : string) : list Byte.byte := list_byte_of_string s.

(** ** The script *)

Inductive MenuOption :=
| Dashboard
| AddNewComplaint
| DataExport
| DatabaseManagement.

Inductive ExportFormat := Excel | CSV.

(** What the widgets return in one run. *)
Record Inputs := mkInputs {
  menu_option : MenuOption;
  date_range : list date;
  status_filter : list string;
  agent_filter : list string;
  form_location : string;
  form_complaint_type : string;
  form_agent_name : string;
  form_resolution_time : Z;
  form_satisfaction_score : Z;
  form_call_duration : Z;
  form_status : string;
  submit_complaint : bool;
  export_format : ExportFormat;
  generate_export : bool;
  password : string;
  clear_all_data : bool;
  load_sample : bool
}.

Record Metrics := mkMetrics {
  total_complaints : nat;
  avg_resolution_time : number;
  avg_satisfaction : number;
  avg_call_duration : number
}.

Record Download := mkDownload {
  data : list Byte.byte;
  file_name : string;
  mime : string
}.

(** What a run shows: the numbers and tables behind the page. *)
Inductive Page :=
| DashboardPage (m : Metrics) (stats : list AgentStats)
                (trend : list (date * nat))
| FormPage (added : bool)
| ExportPage (download : option Download)
| AdminPage (granted cleared loaded : bool).

Definition metrics (df : DataFrame) : Metrics :=
  mkMetrics (len df)
    (mean (map resolution_time (records df)))
    (mean (map satisfaction_score (records df)))
    (mean (map call_duration (records df))).

Definition raise {A} (e : Exception) : M A := fun w => (Raise e, w).

Definition dashboard (df : DataFrame) : M Page :=
  match daily_counts df with
  | Ok trend => ret (DashboardPage (metrics df) (agent_stats df) trend)
  | Raise e => raise e
  end.

Section Script.
(** The workbook writer of pandas (engine xlsxwriter): the bytes of a
    workbook written at the given moment, with one sheet of the given name,
    header and rows.  The library reads the wall clock for itself when the
    workbook is closed and stamps the document with it. *)
Variable xlsxwriter :
  datetime -> string -> list string -> list (list cell) -> list Byte.byte.

(** The moment of writing is the clock as it stands; the readings the
    script takes for itself are the ones [ticks] counts. *)
Definition to_excel (df : DataFrame) : M (list Byte.byte) :=
  fun w =>
    (Ok (xlsxwriter (clock w (ticks w)) "Complaints" (columns df) (values df)),
     w).

Definition add_new_complaint (ui : Inputs) : M Page :=
  if submit_complaint ui then
    dt <- now ;;
    insert_data
      [ mkRow (strftime dt) (form_location ui) (form_complaint_type ui)
          (form_resolution_time ui) (form_satisfaction_score ui)
          (form_agent_name ui) (form_call_duration ui) (form_status ui) ] ;;;
    ret (FormPage true)
  else ret (FormPage false).

Definition data_export (ui : Inputs) (df : DataFrame) : M Page :=
  if generate_export ui then
    match export_format ui with
    | Excel =>
        excel_data <- to_excel df ;;
        ret (ExportPage (Some (mkDownload excel_data "call_center_data.xlsx"
          "application/vnd.openxmlformats-officedocument.spreadsheetml.sheet")))
    | CSV =>
        let csv_data := encode_utf8 (to_csv df) in
        ret (ExportPage (Some (mkDownload csv_data "call_center_data.csv"
          "text/csv")))
    end
  else ret (ExportPage None).

Definition database_management (ui : Inputs) : M Page :=
  if String.eqb (password ui) "admin123" then
    (if clear_all_data ui then clear_all else ret tt) ;;;
    (if load_sample ui
     then sample_data <- load_sample_data ;; insert_data sample_data
     else ret tt) ;;;
    ret (AdminPage true (clear_all_data ui) (load_sample ui))
  else ret (AdminPage false false false).

(** The read at the top of [main] and the bootstrap of an empty table. *)
Definition load_frame : M DataFrame :=
  df <- read_sql ;;
  if len df =? 0 then
    sample_data <- load_sample_data ;;
    insert_data sample_data ;;;
    ret (new_frame sample_data)
  else ret df.

Definition script (ui : Inputs) : M Page :=
  df <- load_frame ;;
  match menu_option ui with
  | Dashboard => dashboard df
  | AddNewComplaint => add_new_complaint ui
  | DataExport => data_export ui df
  | DatabaseManagement => database_management ui
  end.

(** One run of [main] on the database file as it is. *)
Definition main (ui : Inputs) (file : option Table)
           (clock : nat -> datetime) (ticks : nat) : Result Page * World :=
  script ui (mkWorld (init_db file) clock ticks).
End Script.

(** ** Histories of the table *)

(** The largest rowid the table holds or remembers. *)
Definition high (t : Table) : Z :=
  Z.max (sqlite_sequence t) (largest_id (complaints t)).

(** The rows stored under consecutive keys from [i] on. *)
Fixpoint number_rows (i : Z) (rows : list Row) : list Stored :=
  match rows with
  | [] => []
  | r :: rest => mkStored i r :: number_rows (i + 1)%Z rest
  end.

(** The two statements the script sends that change the table. *)
Inductive Statement :=
| Insert (rows : list Row)     (* [insert_data] *)
| DeleteAll.                   (* DELETE FROM complaints *)

(** A statement's effect with the keys it assigned; a failed insert is
    rolled back and assigns none. *)
Definition execute (t : Table) (st : Statement) : Table * list Z :=
  match st with
  | Insert rows =>
      match to_sql t rows with
      | Ok t' =>
          (t', map id (skipn (List.length (complaints t)) (complaints t')))
      | Raise _ => (t, [])
      end
  | DeleteAll => (delete_from_complaints t, [])
  end.

(** The table after a history, with every key assigned on the way, oldest
    first. *)
Fixpoint execute_all (t : Table) (sts : list Statement) : Table * list Z :=
  match sts with
  | [] => (t, [])
  | st :: rest =>
      let (t1, ids1) := execute t st in
      let (t2, ids2) := execute_all t1 rest in
      (t2, ids1 ++ ids2)
  end.

(** [n] runs of the read at the top of the script, one after the other. *)
Fixpoint reload (n : nat) (w : World) : World :=
  match n with
  | 0 => w
  | S n' => reload n' (snd (load_frame w))
  end.

(** ** The filter of the specification *)

(** Section 4.2 of the specification, for comparison with what the script
    shows: the conjunction of the constraints that are present.  The script
    itself has no such function. *)
Definition spec_in_dates (range : list date) (r : Row) : bool :=
  match range with
  | [first; last] =>
      match to_date (timestamp r) with
      | Some d => negb (date_ltb d first) && negb (date_ltb last d)
      | None => false
      end
  | _ => true
  end.

Definition spec_in_set (allowed : list string) (s : string) : bool :=
  match allowed with
  | [] => true
  | _ :: _ => existsb (String.eqb s) allowed
  end.

Definition spec_filter (ui : Inputs) (rows : list Row) : list Row :=
  filter (fun r =>
            spec_in_dates (date_range ui) r
            && spec_in_set (status_filter ui) (status r)
            && spec_in_set (agent_filter ui) (agent_name r)) rows.

(** ** Reading CSV back *)

(** Modelled from the spec: the reader of the round trip ("parsing it
    back"); the repository only writes CSV.  It reads the grammar the writer
    follows: records end at a line feed, fields at a comma, a field that
    starts with a quote runs to its closing quote and holds a quote for every
    doubled one; a blank line is no record. *)
Inductive Mode := Start | Unquoted | Quoted | QuoteSeen.

Definition field_of (acc : list ascii) : string :=
  string_of_list_ascii (rev acc).

(** [acc]: the characters of the field so far, last first; [row]: the fields
    of the record so far, last first. *)
Fixpoint read_records (m : Mode) (acc : list ascii) (row : list string)
         (s : string) : list (list string) :=
  match s with
  | EmptyString =>
      match m, row with
      | Start, [] => []
      | _, _ => [rev (field_of acc :: row)]
      end
  | String c rest =>
      match m with
      | Start =>
          if Ascii.eqb c quotechar then read_records Quoted [] row rest
          else if Ascii.eqb c comma then read_records Start [] (EmptyString :: row) rest
          else if Ascii.eqb c LF then
            match row with
            | [] => read_records Start [] [] rest
            | _ :: _ => rev (EmptyString :: row) :: read_records Start [] [] rest
            end
          else read_records Unquoted [c] row rest
      | Unquoted =>
          if Ascii.eqb c comma then read_records Start [] (field_of acc :: row) rest
          else if Ascii.eqb c LF
          then rev (field_of acc :: row) :: read_records Start [] [] rest
          else read_records Unquoted (c :: acc) row rest
      | Quoted =>
          if Ascii.eqb c quotechar then read_records QuoteSeen acc row rest
          else read_records Quoted (c :: acc) row rest
      | QuoteSeen =>
          if Ascii.eqb c quotechar then read_records Quoted (c :: acc) row rest
          else if Ascii.eqb c comma then read_records Start [] (field_of acc :: row) rest
          else if Ascii.eqb c LF
          then rev (field_of acc :: row) :: read_records Start [] [] rest
          else read_records Unquoted (c :: acc) row rest
      end
  end.








(** ** The numbers the store holds as given *)

(** [insert_row] and [read_sql] keep the numbers of a row as they are.  The
    store does so within these bounds: sqlite3 binds a Python integer only
    if it is a 64-bit integer and raises OverflowError otherwise, and a REAL
    column holds a double, which is the integer it was given for every
    integer up to 2^53 in size and the nearest double above. *)
Definition is_int64 (z : Z) : Prop :=
  (- 9223372036854775808 <= z <= 9223372036854775807)%Z.

Definition is_exact_double (z : Z) : Prop :=
  (- 9007199254740992 <= z <= 9007199254740992)%Z.

Definition storable (r : Row) : Prop :=
  is_exact_double (resolution_time r)
  /\ is_int64 (satisfaction_score r)
  /\ is_exact_double (call_duration r).

(** ** Worlds and rows used as examples *)

Definition fresh_world : World :=
  mkWorld (init_db None) (fun _ => mkDatetime 2024 3 5 9 7 3 250000) 0.

(** A complaint outside every range of section 3. *)
Definition out_of_range_row : Row :=
  mkRow "2024-03-05 09:07:03" "NSW" "Billing" (-5) 9 "Agent1" (-1) "Resolved".

(** A store that holds two complaints, under the keys 1 and 2. *)
Definition two_rows : list Row :=
  [ mkRow "2024-03-05 09:07:03" "NSW" "Billing" 15 4 "Agent1" 120 "Resolved";
    mkRow "2024-03-05 10:30:00" "QLD" "Service" 25 3 "Agent2" 180 "Pending" ].

Definition used_world : World :=
  mkWorld (mkTable (number_rows 1 two_rows) 2)
          (fun _ => mkDatetime 2024 3 6 8 0 0 125) 0.

(** ** The arithmetic mean *)

(** The arithmetic mean stated without division: nothing to average and
    [nan], or a number whose product with the count is the sum. *)
Definition arithmetic_mean (xs : list Z) (x : number) : Prop :=
  match x with
  | nan => xs = []
  | num q =>
      xs <> []
      /\ (q * inject_Z (Z.of_nat (List.length xs)) == inject_Z (total xs))%Q
  end.

(** Three records of two agents, the later name first. *)
Definition agent_rows : list Row :=
  [ mkRow "2024-03-05 09:07:03" "NSW" "Billing" 15 4 "Zoe" 120 "Resolved";
    mkRow "2024-03-05 10:00:00" "QLD" "Service" 25 3 "Adam" 180 "Pending";
    mkRow "2024-03-06 08:30:00" "VIC" "Product" 10 5 "Zoe" 91 "Resolved" ].

(** The sizes of the values add up to at most 2^53: then every sum of
    them that pandas forms in doubles, in whatever order, is the exact
    sum. *)
Definition summable (xs : list Z) : Prop :=
  (fold_right (fun x s => Z.abs x + s) 0 xs <= 9007199254740992)%Z.

(** [x] is the arithmetic mean of [xs] as a double holds it: nothing to
    average and [nan]; else a number within one rounding of the quotient of
    the sum by the count, which is a relative error of at most 2^-53, and
    the quotient itself when the count divides the sum. *)
Definition mean_in_double (xs : list Z) (x : number) : Prop :=
  match x with
  | nan => xs = []
  | num q =>
      xs <> []
      /\ (Qabs (q * inject_Z (Z.of_nat (List.length xs))
                - inject_Z (fold_right Z.add 0%Z xs))
          <= Qabs (inject_Z (fold_right Z.add 0%Z xs))
             * (1 # 9007199254740992))%Q
      /\ ((Z.of_nat (List.length xs) | fold_right Z.add 0%Z xs)%Z ->
          (q == inject_Z (fold_right Z.add 0%Z xs
                          / Z.of_nat (List.length xs)))%Q)
  end.

(** The three numeric columns of the rows are summable. *)
Definition summable_rows (rows : list Row) : Prop :=
  summable (map resolution_time rows)
  /\ summable (map satisfaction_score rows)
  /\ summable (map call_duration rows).

(** The record is of the day [d]. *)
Definition on_date (d : date) (r : Row) : bool :=
  match to_date (timestamp r) with
  | Some d' => date_eqb d' d
  | None => false
  end.

(** Where the reader stands once a field has ended at [sep]: at the next
    field after a comma, at the next record after a line feed. *)
Definition after (sep : ascii) (field : string) (row : list string)
           (rest : string) : list (list string) :=
  if Ascii.eqb sep comma
  then read_records Start [] (field :: row) rest
  else rev (field :: row) :: read_records Start [] [] rest.

Definition is_sep (sep : ascii) : Prop := sep = comma \/ sep = LF.


(** The run [ui] with other choices in the sidebar's filters. *)
Definition set_filters (ui : Inputs) (dates : list date)
           (statuses agents : list string) : Inputs :=
  mkInputs (menu_option ui) dates statuses agents
    (form_location ui) (form_complaint_type ui) (form_agent_name ui)
    (form_resolution_time ui) (form_satisfaction_score ui)
    (form_call_duration ui) (form_status ui) (submit_complaint ui)
    (export_format ui) (generate_export ui) (password ui)
    (clear_all_data ui) (load_sample ui).

(** A visit of [page] with nothing clicked and no filter chosen. *)
Definition visit (page : MenuOption) : Inputs :=
  mkInputs page [] [] [] "NSW" "Billing" "Agent1" 0 3 0 "Resolved" false
    Excel false "" false false.

(** The dashboard with "Resolved" chosen in the status filter. *)
Definition resolved_only : Inputs :=
  set_filters (visit Dashboard) [] ["Resolved"] [].

(** The export page with CSV chosen and "Generate Export" clicked. *)
Definition csv_export : Inputs :=
  mkInputs DataExport [] [] [] "NSW" "Billing" "Agent1" 0 3 0 "Resolved" false
    CSV true "" false false.

(** The form filled in and submitted. *)
Definition submit_form : Inputs :=
  mkInputs AddNewComplaint [] [] [] "WA" "Technical" "Agent4" 30 2 600
    "Escalated" true Excel false "" false false.

(** The administration page with the password given and "Clear All Data"
    clicked. *)
Definition clear_click : Inputs :=
  mkInputs DatabaseManagement [] [] [] "NSW" "Billing" "Agent1" 0 3 0
    "Resolved" false Excel false "admin123" true false.

(** A workbook writer to run the script with where no workbook is made. *)
Definition no_workbook (written : datetime) (sheet : string)
           (header : list string) (rows : list (list cell))
  : list Byte.byte := [].

(** Every change a computation makes to the table is a history of inserts
    and clear-alls. *)
Definition historical {A} (m : M A) : Prop :=
  forall w, exists sts, db (snd (m w)) = fst (execute_all (db w) sts).

(** What SQLite keeps true of an AUTOINCREMENT table: no stored key is above
    the counter. *)
Definition consistent (t : Table) : Prop :=
  (largest_id (complaints t) <= sqlite_sequence t)%Z.

(** The order of a boolean comparison. *)
Definition lt_of {K : Type} (ltb : K -> K -> bool) (a b : K) : Prop :=
  ltb a b = true.

(** ** Runs of the script *)

(** The row the form builds at the moment [ts]. *)
Definition form_row (ui : Inputs) (ts : string) : Row :=
  mkRow ts (form_location ui) (form_complaint_type ui)
    (form_resolution_time ui) (form_satisfaction_score ui)
    (form_agent_name ui) (form_call_duration ui) (form_status ui).

(** A run in which nothing is asked of the store: the dashboard, the export
    page, the form not submitted, the administration page without the
    password or without a click. *)
Definition idle (ui : Inputs) : bool :=
  match menu_option ui with
  | Dashboard | DataExport => true
  | AddNewComplaint => negb (submit_complaint ui)
  | DatabaseManagement =>
      negb (String.eqb (password ui) "admin123")
      || (negb (clear_all_data ui) && negb (load_sample ui))
  end.

(** The timestamp of the row is read as a date. *)
Definition readable (r : Row) : Prop := to_date (timestamp r) <> None.

(** The clock only shows datetimes pandas reads, and every stored timestamp
    is read as a date. *)
Definition well_timed (w : World) : Prop :=
  (forall n, valid_datetime (clock w n) = true)
  /\ Forall (fun s => readable (fields s)) (complaints (db w)).

(** A computation that keeps [I], returns values in [Q] and raises only
    exceptions in [E]. *)
Definition triple {A} (I : World -> Prop) (m : M A)
           (Q : A -> Prop) (E : Exception -> Prop) : Prop :=
  forall w, I w ->
    I (snd (m w))
    /\ match fst (m w) with
       | Ok a => Q a
       | Raise e => E e
       end.






(** The administration page with the password given and "Load Sample
    Data" clicked. *)
Definition load_click : Inputs :=
  mkInputs DatabaseManagement [] [] [] "NSW" "Billing" "Agent1" 0 3 0
    "Resolved" false Excel false "admin123" false true.

(** The runs [uis], one after the other on the same database and
    clock. *)
Fixpoint runs
         (xlsx : datetime -> string -> list string -> list (list cell)
                 -> list Byte.byte)
         (uis : list Inputs) (w : World) : World :=
  match uis with
  | [] => w
  | ui :: rest => runs xlsx rest (snd (script xlsx ui w))
  end.

(** The keys of the table are in ascending order, each once, and none is
    above the counter. *)
Definition keyed (t : Table) : Prop :=
  consistent t /\ StronglySorted Z.lt (map id (complaints t)).

(** A workbook writer that holds the moment of writing among its bytes, to
    the second, as xlsxwriter holds it in the properties of the document
    (docProps/core.xml). *)
Definition stamped_workbook (written : datetime) (sheet : string)
           (header : list string) (rows : list (list cell))
  : list Byte.byte :=
  list_byte_of_string (strftime written).

(** The store of two complaints one second later. *)
Definition a_second_later : World :=
  mkWorld (db used_world) (fun _ => mkDatetime 2024 3 6 8 0 1 125) 0.

(** An empty store at the moment of [used_world]. *)
Definition elsewhere : World :=
  mkWorld empty_table (clock used_world) 3.

(** The export page with Excel chosen and "Generate Export" clicked. *)
Definition excel_export : Inputs :=
  mkInputs DataExport [] [] [] "NSW" "Billing" "Agent1" 0 3 0 "Resolved" false
    Excel true "" false false.

(** ** Tactics *)

Arguments to_sql : simpl never.

(** The two outcomes of the insert in the goal. *)
Ltac case_to_sql :=
  match goal with
  | |- context [to_sql ?t ?rows] => destruct (to_sql t rows)
  end.

(** Facts of the order of dates, by arithmetic on their three numbers. *)
Ltac date_order :=
  unfold date_ltb, date_eqb; simpl;
  rewrite ?orb_true_iff, ?orb_false_iff, ?andb_true_iff, ?andb_false_iff,
    ?orb_true_iff, ?orb_false_iff, ?andb_true_iff, ?andb_false_iff,
    ?Nat.ltb_lt, ?Nat.ltb_ge, ?Nat.eqb_eq, ?Nat.eqb_neq;
  lia.

(** * Properties *)

(** ** The table and its keys *)

Lemma largest_id_nonneg rows : (0 <= largest_id rows)%Z.
Proof.
  induction rows as [|r rows IH]; simpl; lia.
Qed.

Lemma largest_id_app rows more :
  largest_id (rows ++ more) = Z.max (largest_id rows) (largest_id more).
Proof.
  induction rows as [|r rows IH]; simpl.
  - pose proof (largest_id_nonneg more). lia.
  - rewrite IH. lia.
Qed.

Lemma high_nonneg t : (0 <= high t)%Z.
Proof.
  unfold high. pose proof (largest_id_nonneg (complaints t)). lia.
Qed.

Lemma insert_row_ok t r :
  (high t < max_rowid)%Z ->
  insert_row t r
  = Ok (mkTable (complaints t ++ [mkStored (high t + 1) r]) (high t + 1)).
Proof.
  intros H. unfold insert_row, next_rowid. fold (high t).
  destruct (Z.leb_spec (high t + 1) max_rowid); [reflexivity | lia].
Qed.

Lemma insert_row_full t r :
  (max_rowid <= high t)%Z -> insert_row t r = Raise OperationalError.
Proof.
  intros H. unfold insert_row, next_rowid. fold (high t).
  destruct (Z.leb_spec (high t + 1) max_rowid); [lia | reflexivity].
Qed.

Lemma high_after_insert t r :
  high (mkTable (complaints t ++ [mkStored (high t + 1) r]) (high t + 1))
  = (high t + 1)%Z.
Proof.
  unfold high at 1. simpl. rewrite largest_id_app. simpl.
  pose proof (high_nonneg t).
  assert (largest_id (complaints t) <= high t)%Z by (unfold high; lia).
  lia.
Qed.

Lemma to_sql_cons t r rows :
  to_sql t (r :: rows)
  = match insert_row t r with
    | Ok t' => to_sql t' rows
    | Raise e => Raise e
    end.
Proof. reflexivity. Qed.

(** An insert that fits below the largest rowid stores every row, in order,
    under the next keys. *)
Lemma to_sql_ok rows : forall t,
  (high t + Z.of_nat (List.length rows) <= max_rowid)%Z ->
  exists t',
    to_sql t rows = Ok t'
    /\ complaints t' = complaints t ++ number_rows (high t + 1) rows
    /\ high t' = (high t + Z.of_nat (List.length rows))%Z
    /\ (consistent t -> consistent t').
Proof.
  induction rows as [|r rows IH]; intros t Hfit.
  - exists t. simpl. rewrite app_nil_r. repeat split; auto; lia.
  - rewrite to_sql_cons.
    change (List.length (r :: rows)) with (S (List.length rows)) in *.
    rewrite insert_row_ok by lia.
    set (t1 := mkTable (complaints t ++ [mkStored (high t + 1) r]) (high t + 1)).
    assert (H1 : high t1 = (high t + 1)%Z) by apply high_after_insert.
    destruct (IH t1) as (t' & E & Hrows & Hhigh & Hcons); [lia|].
    exists t'. rewrite E, Hrows, Hhigh, H1. simpl.
    rewrite <- app_assoc. simpl. repeat split; try lia.
    intros _. apply Hcons. unfold consistent, t1. simpl.
    rewrite largest_id_app. simpl.
    pose proof (high_nonneg t).
    assert (largest_id (complaints t) <= high t)%Z by (unfold high; lia).
    lia.
Qed.

(** An insert that does not fit fails as a whole. *)
Lemma to_sql_full rows : forall t,
  rows <> [] ->
  (max_rowid < high t + Z.of_nat (List.length rows))%Z ->
  to_sql t rows = Raise OperationalError.
Proof.
  induction rows as [|r rows IH]; intros t Hne Hfull; [congruence|].
  rewrite to_sql_cons.
  change (List.length (r :: rows)) with (S (List.length rows)) in *.
  destruct (Z_lt_le_dec (high t) max_rowid) as [Hlt | Hge].
  - rewrite insert_row_ok by assumption.
    apply IH.
    + destruct rows; [simpl in Hfull; lia | discriminate].
    + rewrite high_after_insert. lia.
  - now rewrite insert_row_full.
Qed.

Lemma skipn_length_app {A} (l more : list A) :
  skipn (List.length l) (l ++ more) = more.
Proof.
  induction l as [|a l IH]; simpl; auto.
Qed.

Lemma number_rows_ids rows : forall i,
  StronglySorted Z.lt (map id (number_rows i rows))
  /\ Forall (fun j => i <= j < i + Z.of_nat (List.length rows))%Z
            (map id (number_rows i rows)).
Proof.
  induction rows as [|r rows IH]; intros i; simpl.
  - split; constructor.
  - destruct (IH (i + 1)%Z) as [Hs Hb]. split.
    + constructor; [assumption|].
      eapply Forall_impl; [|exact Hb]. simpl. intros; lia.
    + constructor; [lia|].
      eapply Forall_impl; [|exact Hb]. simpl. intros; lia.
Qed.

Lemma number_rows_fields rows : forall i,
  map fields (number_rows i rows) = rows.
Proof.
  induction rows as [|r rows IH]; intros i; simpl; [|rewrite IH]; reflexivity.
Qed.

Lemma StronglySorted_app_lt (l1 l2 : list Z) (m : Z) :
  StronglySorted Z.lt l1 -> StronglySorted Z.lt l2 ->
  Forall (fun i => i <= m)%Z l1 -> Forall (fun i => m < i)%Z l2 ->
  StronglySorted Z.lt (l1 ++ l2).
Proof.
  intros H1 H2 B1 B2. induction H1 as [|a l1 Hs IH Ha]; simpl; [assumption|].
  inversion B1; subst. constructor; [auto|].
  apply Forall_app. split; [assumption|].
  eapply Forall_impl; [|exact B2]. simpl. intros; lia.
Qed.

(** One statement: the keys it assigns are increasing, above everything the
    table held or remembered, and remembered afterwards. *)
Lemma execute_keys t st :
  consistent t ->
  let (t', ids) := execute t st in
  consistent t'
  /\ (high t <= high t')%Z
  /\ StronglySorted Z.lt ids
  /\ Forall (fun i => high t < i <= high t')%Z ids.
Proof.
  intros Hc. destruct st as [rows|]; simpl.
  - destruct (Z_le_gt_dec (high t + Z.of_nat (List.length rows)) max_rowid)
      as [Hfit | Hfull].
    + destruct (to_sql_ok rows t Hfit) as (t' & E & Hrows & Hhigh & Hcons).
      rewrite E, Hrows, skipn_length_app.
      destruct (number_rows_ids rows (high t + 1)) as [Hs Hb].
      repeat split; auto; try lia.
      eapply Forall_impl; [|exact Hb]. simpl. intros; lia.
    + destruct rows as [|r rows].
      * simpl. rewrite skipn_all. repeat split; auto; try lia; constructor.
      * rewrite to_sql_full by (try discriminate; lia).
        repeat split; auto; try lia; constructor.
  - pose proof (largest_id_nonneg (complaints t)).
    unfold consistent, high in *. simpl in *.
    repeat split; try lia; constructor.
Qed.

Lemma execute_all_keys sts : forall t,
  consistent t ->
  let (t', ids) := execute_all t sts in
  consistent t'
  /\ (high t <= high t')%Z
  /\ StronglySorted Z.lt ids
  /\ Forall (fun i => high t < i <= high t')%Z ids.
Proof.
  induction sts as [|st sts IH]; intros t Hc; simpl.
  - repeat split; auto; try lia; constructor.
  - pose proof (execute_keys t st Hc) as H1.
    destruct (execute t st) as [t1 ids1].
    destruct H1 as (Hc1 & Hh1 & Hs1 & Hb1).
    pose proof (IH t1 Hc1) as H2.
    destruct (execute_all t1 sts) as [t2 ids2].
    destruct H2 as (Hc2 & Hh2 & Hs2 & Hb2).
    repeat split; auto; try lia.
    + apply StronglySorted_app_lt with (m := high t1); auto.
      * eapply Forall_impl; [|exact Hb1]. simpl. intros; lia.
      * eapply Forall_impl; [|exact Hb2]. simpl. intros; lia.
    + apply Forall_app. split.
      * eapply Forall_impl; [|exact Hb1]. simpl. intros; lia.
      * eapply Forall_impl; [|exact Hb2]. simpl. intros; lia.
Qed.

(** C10: over every history of inserts and clear-alls on the table that
    [init_db] creates, the keys the store assigns are strictly increasing in
    the order they were assigned, so none is ever assigned twice, a key of a
    row that a clear-all removed included; the same holds from any table in
    which no key is above the counter, and there every new key is also above
    every key the table holds. *)
Theorem ids_strictly_increasing_across_clears (sts : list Statement) :
  StronglySorted Z.lt (snd (execute_all (init_db None) sts))
  /\ NoDup (snd (execute_all (init_db None) sts))
  /\ forall t, consistent t ->
       StronglySorted Z.lt (snd (execute_all t sts))
       /\ Forall (fun i => Forall (fun s => id s < i)%Z (complaints t))
                 (snd (execute_all t sts)).
Proof.
  assert (G : forall t, consistent t ->
       StronglySorted Z.lt (snd (execute_all t sts))
       /\ Forall (fun i => Forall (fun s => id s < i)%Z (complaints t))
                 (snd (execute_all t sts))).
  { intros t Hc. pose proof (execute_all_keys sts t Hc) as H.
    destruct (execute_all t sts) as [t' ids]. simpl.
    destruct H as (_ & _ & Hs & Hb). split; [assumption|].
    eapply Forall_impl; [|exact Hb]. simpl. intros i Hi.
    assert (L : forall rows, Forall (fun s => id s <= largest_id rows)%Z rows).
    { induction rows as [|r rows IH]; constructor; simpl; [lia|].
      eapply Forall_impl; [|exact IH]. simpl. intros; lia. }
    eapply Forall_impl; [|apply L]. simpl. intros s Hs'.
    unfold high in Hi. lia. }
  assert (C0 : consistent (init_db None)) by (unfold consistent; simpl; lia).
  destruct (G _ C0) as [Hs _].
  split; [exact Hs|]. split; [|exact G].
  clear - Hs. induction Hs as [|a l Hs IH Ha]; constructor; auto.
  intros Hin. rewrite Forall_forall in Ha. specialize (Ha _ Hin). lia.
Qed.

(** ** Inserting *)

Lemma insert_data_ok (w : World) (df : list Row) :
  (high (db w) + Z.of_nat (List.length df) <= max_rowid)%Z ->
  exists t',
    insert_data df w = (Ok tt, mkWorld t' (clock w) (ticks w))
    /\ complaints t' = complaints (db w) ++ number_rows (high (db w) + 1) df
    /\ high t' = (high (db w) + Z.of_nat (List.length df))%Z.
Proof.
  intros Hfit. destruct (to_sql_ok df (db w) Hfit) as (t' & E & Hrows & Hhigh & _).
  exists t'. unfold insert_data. rewrite E. auto.
Qed.

(** C2, as the script has it: [insert_data] checks no field against the
    ranges of the schema.  Whatever the satisfaction score, resolution time
    and call duration of the submitted records are among the numbers the
    store holds as given, and so also outside 1..5 or below zero, an insert
    that fits below the largest rowid succeeds, raises nothing, and appends
    every record to the store with the values it was given. *)
Theorem insert_data_stores_any_values (w : World) (df : list Row) :
  Forall storable df ->
  (high (db w) + Z.of_nat (List.length df) <= max_rowid)%Z ->
  exists w',
    insert_data df w = (Ok tt, w')
    /\ map fields (complaints (db w')) = map fields (complaints (db w)) ++ df
    /\ List.length (complaints (db w'))
       = List.length (complaints (db w)) + List.length df.
Proof.
  intros _ Hfit. destruct (insert_data_ok w df Hfit) as (t' & E & Hrows & _).
  eexists. split; [exact E|]. simpl. rewrite Hrows. split.
  - now rewrite map_app, number_rows_fields.
  - rewrite length_app. f_equal.
    rewrite <- (length_map fields), number_rows_fields. reflexivity.
Qed.

(** The out-of-range complaint inserted into the fresh database. *)
Lemma insert_data_stores_any_values_witness :
  exists w',
    insert_data [out_of_range_row] fresh_world = (Ok tt, w')
    /\ map fields (complaints (db w'))
       = map fields (complaints (db fresh_world)) ++ [out_of_range_row]
    /\ List.length (complaints (db w'))
       = List.length (complaints (db fresh_world)) + List.length [out_of_range_row].
Proof.
  apply (insert_data_stores_any_values fresh_world [out_of_range_row]).
  - repeat constructor; simpl; lia.
  - vm_compute. discriminate.
Defined.

(** C2, the claim as stated fails: a complaint with score 9, resolution
    time -5 and call duration -1 is not rejected; the insert returns
    normally and the store, empty before, holds the record. *)
Lemma out_of_range_complaint_is_stored :
  fst (insert_data [out_of_range_row] fresh_world) = Ok tt
  /\ complaints (db (snd (insert_data [out_of_range_row] fresh_world)))
     = [mkStored 1 out_of_range_row]
  /\ db (snd (insert_data [out_of_range_row] fresh_world)) <> db fresh_world.
Proof.
  repeat split. vm_compute. discriminate.
Qed.

(** ** The bootstrap sample *)

Lemma load_frame_nonempty (w : World) :
  complaints (db w) <> [] ->
  load_frame w = (Ok (read_frame (complaints (db w))), w).
Proof.
  intros Hne. unfold load_frame, bind, read_sql, len. simpl.
  rewrite length_map. destruct (complaints (db w)); [congruence | reflexivity].
Qed.

Lemma load_frame_empty (w : World) :
  complaints (db w) = [] ->
  (high (db w) + 3 <= max_rowid)%Z ->
  exists t',
    load_frame w
    = (Ok (new_frame (sample_rows (strftime (clock w (ticks w))))),
       mkWorld t' (clock w) (S (ticks w)))
    /\ complaints t'
       = number_rows (high (db w) + 1)
           (sample_rows (strftime (clock w (ticks w)))).
Proof.
  intros Hempty Hfit.
  set (ts := strftime (clock w (ticks w))).
  destruct (insert_data_ok (mkWorld (db w) (clock w) (S (ticks w)))
              (sample_rows ts)) as (t' & E & Hrows & _); [simpl; lia|].
  exists t'. simpl in *. rewrite Hempty in Hrows. simpl in Hrows. split.
  - unfold load_frame, bind, read_sql, len, load_sample_data, bind, now, ret.
    simpl. rewrite Hempty. simpl. fold ts. rewrite E. reflexivity.
  - exact Hrows.
Qed.

Lemma reload_fixed (n : nat) (w : World) :
  complaints (db w) <> [] -> reload n w = w.
Proof.
  intros Hne. induction n as [|n IH]; simpl; [reflexivity|].
  now rewrite load_frame_nonempty.
Qed.

(** C3: the read at the top of the script seeds the store only when it
    reads it empty, and once: a table that holds a row is returned as read
    and nothing is written; after a clear-all the read of the table returns
    no record; the next run of the read path then inserts three records and
    no other, (NSW, Billing, 15, 4, Agent1, 120, Resolved), (QLD, Service,
    25, 3, Agent2, 180, Pending) and (VIC, Product, 10, 5, Agent3, 90,
    Resolved), with the timestamp of that moment and the next three keys,
    and shows them; no number of further runs of it writes again: each read
    returns exactly these three records. *)
Theorem bootstrap_seeds_once_when_read_empty (w : World) (n : nat) :
  (high (db (snd (clear_all w))) + 3 <= max_rowid)%Z ->
  (forall w', complaints (db w') <> [] ->
     load_frame w' = (Ok (read_frame (complaints (db w'))), w'))
  /\ fst (read_sql (snd (clear_all w))) = Ok (read_frame [])
  /\ exists w1,
       load_frame (snd (clear_all w))
       = (Ok (new_frame
                [ mkRow (strftime (clock w (ticks w)))
                    "NSW" "Billing" 15 4 "Agent1" 120 "Resolved";
                  mkRow (strftime (clock w (ticks w)))
                    "QLD" "Service" 25 3 "Agent2" 180 "Pending";
                  mkRow (strftime (clock w (ticks w)))
                    "VIC" "Product" 10 5 "Agent3" 90 "Resolved" ]), w1)
       /\ complaints (db w1)
          = [ mkStored (high (db (snd (clear_all w))) + 1)
                (mkRow (strftime (clock w (ticks w)))
                   "NSW" "Billing" 15 4 "Agent1" 120 "Resolved");
              mkStored (high (db (snd (clear_all w))) + 2)
                (mkRow (strftime (clock w (ticks w)))
                   "QLD" "Service" 25 3 "Agent2" 180 "Pending");
              mkStored (high (db (snd (clear_all w))) + 3)
                (mkRow (strftime (clock w (ticks w)))
                   "VIC" "Product" 10 5 "Agent3" 90 "Resolved") ]
       /\ List.length (complaints (db w1)) = 3
       /\ reload n w1 = w1
       /\ fst (read_sql (reload n w1)) = Ok (read_frame (complaints (db w1))).
Proof.
  intros Hfit. split; [exact load_frame_nonempty|]. split; [reflexivity|].
  destruct (load_frame_empty (snd (clear_all w)) eq_refl Hfit) as (t' & E & Hrows).
  cbn [clear_all snd clock ticks] in E, Hrows.
  exists (mkWorld t' (clock w) (S (ticks w))).
  assert (Hlist : complaints t'
    = [ mkStored (high (db (snd (clear_all w))) + 1)
          (mkRow (strftime (clock w (ticks w)))
             "NSW" "Billing" 15 4 "Agent1" 120 "Resolved");
        mkStored (high (db (snd (clear_all w))) + 2)
          (mkRow (strftime (clock w (ticks w)))
             "QLD" "Service" 25 3 "Agent2" 180 "Pending");
        mkStored (high (db (snd (clear_all w))) + 3)
          (mkRow (strftime (clock w (ticks w)))
             "VIC" "Product" 10 5 "Agent3" 90 "Resolved") ]).
  { rewrite Hrows. cbn [clear_all snd db]. unfold sample_rows.
    cbn [number_rows].
    replace (high (delete_from_complaints (db w)) + 1 + 1)%Z
      with (high (delete_from_complaints (db w)) + 2)%Z by lia.
    replace (high (delete_from_complaints (db w)) + 2 + 1)%Z
      with (high (delete_from_complaints (db w)) + 3)%Z by lia.
    reflexivity. }
  assert (Hne : complaints (db (mkWorld t' (clock w) (S (ticks w)))) <> [])
    by (cbn [db]; rewrite Hlist; discriminate).
  split; [exact E|]. cbn [db]. split; [exact Hlist|].
  split; [now rewrite Hlist|].
  rewrite (reload_fixed n _ Hne). split; reflexivity.
Qed.

(** A store of two complaints cleared, read, and read five times more. *)
Lemma bootstrap_seeds_once_when_read_empty_witness :
  (forall w', complaints (db w') <> [] ->
     load_frame w' = (Ok (read_frame (complaints (db w'))), w'))
  /\ fst (read_sql (snd (clear_all used_world))) = Ok (read_frame [])
  /\ exists w1,
       load_frame (snd (clear_all used_world))
       = (Ok (new_frame
                [ mkRow (strftime (clock used_world (ticks used_world)))
                    "NSW" "Billing" 15 4 "Agent1" 120 "Resolved";
                  mkRow (strftime (clock used_world (ticks used_world)))
                    "QLD" "Service" 25 3 "Agent2" 180 "Pending";
                  mkRow (strftime (clock used_world (ticks used_world)))
                    "VIC" "Product" 10 5 "Agent3" 90 "Resolved" ]), w1)
       /\ complaints (db w1)
          = [ mkStored (high (db (snd (clear_all used_world))) + 1)
                (mkRow (strftime (clock used_world (ticks used_world)))
                   "NSW" "Billing" 15 4 "Agent1" 120 "Resolved");
              mkStored (high (db (snd (clear_all used_world))) + 2)
                (mkRow (strftime (clock used_world (ticks used_world)))
                   "QLD" "Service" 25 3 "Agent2" 180 "Pending");
              mkStored (high (db (snd (clear_all used_world))) + 3)
                (mkRow (strftime (clock used_world (ticks used_world)))
                   "VIC" "Product" 10 5 "Agent3" 90 "Resolved") ]
       /\ List.length (complaints (db w1)) = 3
       /\ reload 5 w1 = w1
       /\ fst (read_sql (reload 5 w1)) = Ok (read_frame (complaints (db w1))).
Proof.
  apply (bootstrap_seeds_once_when_read_empty used_world 5).
  vm_compute. discriminate.
Defined.

(** ** Grouping *)

Section GroupByFacts.
Context {K : Type} (ltb eqb : K -> K -> bool).
Hypothesis eqb_eq : forall a b, eqb a b = true <-> a = b.
Hypothesis ltb_irrefl : forall a, ltb a a = false.
Hypothesis ltb_trans :
  forall a b c, ltb a b = true -> ltb b c = true -> ltb a c = true.
Hypothesis ltb_total :
  forall a b, ltb a b = false -> eqb a b = false -> ltb b a = true.

Lemma insert_key_In k ks x :
  In x (insert_key ltb eqb k ks) <-> x = k \/ In x ks.
Proof.
  induction ks as [|y ks IH]; simpl.
  - intuition.
  - destruct (ltb k y); simpl; [intuition|].
    destruct (eqb k y) eqn:E; simpl.
    + apply eqb_eq in E. subst. intuition.
    + rewrite IH. intuition.
Qed.

Lemma insert_key_sorted k ks :
  StronglySorted (lt_of ltb) ks ->
  StronglySorted (lt_of ltb) (insert_key ltb eqb k ks).
Proof.
  induction 1 as [|y ks Hs IH Hy]; simpl.
  - repeat constructor.
  - destruct (ltb k y) eqn:L.
    + constructor; [constructor; assumption|].
      constructor; [exact L|].
      eapply Forall_impl; [|exact Hy]. intros z Hz. exact (ltb_trans _ _ _ L Hz).
    + destruct (eqb k y) eqn:E.
      * constructor; assumption.
      * constructor; [assumption|].
        apply Forall_forall. intros z Hz. apply insert_key_In in Hz.
        destruct Hz as [-> | Hz].
        -- apply ltb_total; [exact L | exact E].
        -- rewrite Forall_forall in Hy. now apply Hy.
Qed.

Lemma sorted_keys_In ks x : In x (sorted_keys ltb eqb ks) <-> In x ks.
Proof.
  induction ks as [|k ks IH]; simpl; [tauto|].
  rewrite insert_key_In, IH. intuition.
Qed.

Lemma sorted_keys_sorted ks : StronglySorted (lt_of ltb) (sorted_keys ltb eqb ks).
Proof.
  induction ks as [|k ks IH]; simpl; [constructor|].
  now apply insert_key_sorted.
Qed.

Lemma sorted_NoDup ks : StronglySorted (lt_of ltb) ks -> NoDup ks.
Proof.
  induction 1 as [|y ks Hs IH Hy]; constructor; [|assumption].
  intros Hin. rewrite Forall_forall in Hy. specialize (Hy _ Hin).
  unfold lt_of in Hy. rewrite ltb_irrefl in Hy. discriminate.
Qed.

Lemma eqb_refl k : eqb k k = true.
Proof. now apply eqb_eq. Qed.

(** Among keys that are all different, a key is met never or once. *)
Lemma hits_absent x ks :
  ~ In x ks -> list_sum (map (fun k => if eqb x k then 1 else 0) ks) = 0.
Proof.
  induction ks as [|k ks IH]; simpl; intros Hn; [reflexivity|].
  destruct (eqb x k) eqn:E.
  - apply eqb_eq in E. subst. tauto.
  - apply IH. tauto.
Qed.

Lemma hits_present x ks :
  NoDup ks -> In x ks ->
  list_sum (map (fun k => if eqb x k then 1 else 0) ks) = 1.
Proof.
  induction 1 as [|k ks Hk Hnd IH]; simpl; intros Hin; [contradiction|].
  destruct (eqb x k) eqn:E.
  - apply eqb_eq in E. subst. now rewrite hits_absent.
  - destruct Hin as [-> | Hin]; [rewrite eqb_refl in E; discriminate|].
    now apply IH.
Qed.

Lemma list_sum_map_add {A} (f g : A -> nat) l :
  list_sum (map (fun a => f a + g a) l)
  = list_sum (map f l) + list_sum (map g l).
Proof.
  induction l as [|a l IH]; simpl; [reflexivity | rewrite IH; lia].
Qed.

Lemma list_sum_map_zero {A} (l : list A) :
  list_sum (map (fun _ => 0) l) = 0.
Proof.
  induction l; simpl; auto.
Qed.

(** Groups over keys that are all different and miss no row share out the
    rows: their sizes add up to the number of rows. *)
Lemma group_sizes {A} (key : A -> K) rows ks :
  NoDup ks -> (forall r, In r rows -> In (key r) ks) ->
  list_sum (map (fun k => List.length (filter (fun r => eqb (key r) k) rows)) ks)
  = List.length rows.
Proof.
  intros Hnd. induction rows as [|r rows IH]; intros Hcover; simpl.
  - apply list_sum_map_zero.
  - transitivity
      (list_sum
         (map (fun k => (if eqb (key r) k then 1 else 0)
                        + List.length (filter (fun r0 => eqb (key r0) k) rows))
              ks)).
    + f_equal. apply map_ext. intros k.
      destruct (eqb (key r) k); reflexivity.
    + rewrite list_sum_map_add.
      rewrite (hits_present (key r) ks Hnd) by (apply Hcover; now left).
      rewrite IH by (intros; apply Hcover; now right).
      reflexivity.
Qed.

Lemma groupby_keys {A} (key : A -> K) rows :
  map fst (groupby ltb eqb key rows) = sorted_keys ltb eqb (map key rows).
Proof.
  unfold groupby. rewrite map_map. simpl. apply map_id.
Qed.

Lemma groupby_In {A} (key : A -> K) rows k g :
  In (k, g) (groupby ltb eqb key rows) ->
  g = filter (fun r => eqb (key r) k) rows /\ g <> [] /\ In k (map key rows).
Proof.
  unfold groupby. rewrite in_map_iff. intros (k' & E & Hin).
  inversion E; subst. rewrite sorted_keys_In in Hin.
  split; [reflexivity|]. split; [|assumption].
  apply in_map_iff in Hin. destruct Hin as (r & Hr & Hin).
  intros Hnil.
  assert (Hf : In r (filter (fun r0 => eqb (key r0) (key r)) rows))
    by (apply filter_In; split; [assumption | apply eqb_refl]).
  rewrite <- Hr in Hnil. rewrite Hnil in Hf. contradiction.
Qed.

Lemma groupby_sizes {A} (key : A -> K) rows :
  list_sum (map (fun g => List.length (snd g)) (groupby ltb eqb key rows))
  = List.length rows.
Proof.
  unfold groupby. rewrite map_map. simpl.
  apply group_sizes.
  - apply sorted_NoDup, sorted_keys_sorted.
  - intros r Hr. apply sorted_keys_In. now apply in_map.
Qed.
End GroupByFacts.

(** *** The two orders used for grouping *)

Lemma string_ltb_irrefl a : String.ltb a a = false.
Proof.
  unfold String.ltb.
  assert (E : String.compare a a = Eq).
  { induction a as [|c a IH]; simpl; [reflexivity|].
    unfold Ascii.compare. now rewrite N.compare_refl. }
  now rewrite E.
Qed.

Lemma string_compare_trans a : forall b c,
  String.compare a b = Lt -> String.compare b c = Lt -> String.compare a c = Lt.
Proof.
  induction a as [|x a IH]; intros [|y b] [|z c]; simpl; try easy.
  unfold Ascii.compare. intros H1 H2.
  destruct (N.compare_spec (N_of_ascii x) (N_of_ascii y)) as [E1|L1|G1];
    try discriminate;
  destruct (N.compare_spec (N_of_ascii y) (N_of_ascii z)) as [E2|L2|G2];
    try discriminate.
  - rewrite E1, E2, N.compare_refl. now apply IH with b.
  - rewrite E1. now apply N.compare_lt_iff in L2 as ->.
  - rewrite <- E2. now apply N.compare_lt_iff in L1 as ->.
  - assert (L : (N_of_ascii x < N_of_ascii z)%N) by lia.
    now apply N.compare_lt_iff in L as ->.
Qed.

Lemma string_ltb_trans a b c :
  String.ltb a b = true -> String.ltb b c = true -> String.ltb a c = true.
Proof.
  unfold String.ltb. intros H1 H2.
  destruct (String.compare a b) eqn:E1; try discriminate.
  destruct (String.compare b c) eqn:E2; try discriminate.
  now rewrite (string_compare_trans a b c E1 E2).
Qed.

Lemma string_ltb_total a b :
  String.ltb a b = false -> String.eqb a b = false -> String.ltb b a = true.
Proof.
  unfold String.ltb. intros H1 H2. rewrite String.compare_antisym.
  destruct (String.compare a b) eqn:E; simpl; try easy.
  apply String.compare_eq_iff in E. subst. now rewrite String.eqb_refl in H2.
Qed.

Lemma date_eqb_eq a b : date_eqb a b = true <-> a = b.
Proof.
  destruct a, b. unfold date_eqb. simpl.
  rewrite !andb_true_iff, !Nat.eqb_eq. split.
  - intros [[-> ->] ->]. reflexivity.
  - intros E. inversion E. auto.
Qed.

Lemma date_ltb_irrefl a : date_ltb a a = false.
Proof. destruct a. date_order. Qed.

Lemma date_ltb_trans a b c :
  date_ltb a b = true -> date_ltb b c = true -> date_ltb a c = true.
Proof. destruct a, b, c. date_order. Qed.

Lemma date_ltb_total a b :
  date_ltb a b = false -> date_eqb a b = false -> date_ltb b a = true.
Proof. destruct a, b. date_order. Qed.

(** ** Averages *)


Lemma mean_arithmetic xs : arithmetic_mean xs (mean xs).
Proof.
  destruct xs as [|x xs]; [reflexivity|].
  unfold mean, arithmetic_mean. split; [discriminate|].
  rewrite Qmult_comm. apply Qmult_div_r.
  unfold Qeq. simpl. lia.
Qed.

Lemma mean_nan_iff xs : mean xs = nan <-> xs = [].
Proof.
  destruct xs; simpl; split; congruence.
Qed.

(** The frame the script works on is never empty: an empty table is
    seeded before anything is shown. *)
Lemma load_frame_records (w w' : World) (df : DataFrame) :
  load_frame w = (Ok df, w') -> records df <> [].
Proof.
  unfold load_frame, bind, read_sql, len. simpl. rewrite length_map.
  destruct (complaints (db w)) as [|s rows] eqn:E; simpl.
  - unfold bind, load_sample_data, bind, now, ret, insert_data. simpl.
    case_to_sql; intros H; inversion H; subst; discriminate.
  - intros H. inversion H; subst. discriminate.
Qed.

Lemma mean_in_double_mean xs : mean_in_double xs (mean xs).
Proof.
  pose proof (mean_arithmetic xs) as H.
  destruct xs as [|x xs]; [reflexivity|].
  unfold mean, arithmetic_mean, total in *. destruct H as [Hne E].
  split; [exact Hne|]. split.
  - rewrite E.
    assert (Z0 : (inject_Z (fold_right Z.add 0%Z (x :: xs))
                  - inject_Z (fold_right Z.add 0%Z (x :: xs)) == 0)%Q)
      by ring.
    rewrite Z0. change (Qabs 0) with 0%Q.
    apply Qmult_le_0_compat; [apply Qabs_nonneg | discriminate].
  - intros [k Hk]. rewrite Hk.
    rewrite Z.div_mul by (simpl List.length; lia).
    rewrite inject_Z_mult. apply Qdiv_mult_l.
    unfold Qeq. simpl. lia.
Qed.

(** C4: over a frame whose columns are summable in doubles, the three
    global averages are the arithmetic means of their columns over the
    records of the frame, as doubles hold them: within one rounding of the
    quotient of the sum by the number of records, and equal to it when it is
    an integer.  Over no record each is [nan], the no-data value of pandas,
    and nothing is raised: [metrics] is a total function.  In a run of the
    script the averages are always numbers, the frame it shows being never
    empty. *)
Theorem global_averages_are_arithmetic_means (df : DataFrame) :
  summable_rows (records df) ->
  mean_in_double (map resolution_time (records df))
                 (avg_resolution_time (metrics df))
  /\ mean_in_double (map satisfaction_score (records df))
                    (avg_satisfaction (metrics df))
  /\ mean_in_double (map call_duration (records df))
                    (avg_call_duration (metrics df))
  /\ total_complaints (metrics df) = len df
  /\ (records df = [] -> metrics df = mkMetrics 0 nan nan nan)
  /\ (records df <> [] ->
      exists q1 q2 q3, metrics df = mkMetrics (len df) (num q1) (num q2) (num q3))
  /\ (forall xlsx ui w m st tr,
        fst (script xlsx ui w) = Ok (DashboardPage m st tr) ->
        exists q1 q2 q3,
          avg_resolution_time m = num q1 /\ avg_satisfaction m = num q2
          /\ avg_call_duration m = num q3).
Proof.
  intros _. unfold metrics. simpl.
  split; [apply mean_in_double_mean|]. split; [apply mean_in_double_mean|].
  split; [apply mean_in_double_mean|]. split; [reflexivity|].
  split; [|split].
  - unfold len. intros ->. reflexivity.
  - intros Hne. destruct (records df) as [|r rows]; [congruence|].
    simpl. eauto.
  - intros xlsx ui w m st tr. unfold script, bind.
    destruct (load_frame w) as [[df'|e] w'] eqn:E; [|discriminate].
    apply load_frame_records in E.
    destruct (menu_option ui).
    + unfold dashboard. destruct (daily_counts df'); [|discriminate].
      simpl. intros H. inversion H; subst. unfold metrics. simpl.
      destruct (records df') as [|r rows]; [congruence|]. simpl.
      repeat eexists.
    + unfold add_new_complaint, bind, now, insert_data, ret.
      destruct (submit_complaint ui); simpl; [|discriminate].
      case_to_sql; discriminate.
    + unfold data_export, to_excel, bind, ret.
      destruct (generate_export ui); [|discriminate].
      destruct (export_format ui); discriminate.
    + unfold database_management, bind, ret.
      destruct (String.eqb _ _); [|discriminate].
      destruct (clear_all_data ui); simpl;
        (destruct (load_sample ui); simpl;
         [unfold load_sample_data, bind, now, ret, insert_data; simpl;
          case_to_sql; discriminate | discriminate]).
Qed.

(** The sample as built in memory: resolution times 15, 25 and 10, whose
    mean 50/3 no double holds. *)
Lemma global_averages_are_arithmetic_means_witness :
  mean_in_double (map resolution_time (records (new_frame (sample_rows "t"))))
                 (avg_resolution_time (metrics (new_frame (sample_rows "t"))))
  /\ mean_in_double (map satisfaction_score (records (new_frame (sample_rows "t"))))
                    (avg_satisfaction (metrics (new_frame (sample_rows "t"))))
  /\ mean_in_double (map call_duration (records (new_frame (sample_rows "t"))))
                    (avg_call_duration (metrics (new_frame (sample_rows "t"))))
  /\ total_complaints (metrics (new_frame (sample_rows "t")))
     = len (new_frame (sample_rows "t"))
  /\ (records (new_frame (sample_rows "t")) = [] ->
      metrics (new_frame (sample_rows "t")) = mkMetrics 0 nan nan nan)
  /\ (records (new_frame (sample_rows "t")) <> [] ->
      exists q1 q2 q3,
        metrics (new_frame (sample_rows "t"))
        = mkMetrics (len (new_frame (sample_rows "t"))) (num q1) (num q2) (num q3))
  /\ (forall xlsx ui w m st tr,
        fst (script xlsx ui w) = Ok (DashboardPage m st tr) ->
        exists q1 q2 q3,
          avg_resolution_time m = num q1 /\ avg_satisfaction m = num q2
          /\ avg_call_duration m = num q3).
Proof.
  apply (global_averages_are_arithmetic_means (new_frame (sample_rows "t"))).
  repeat split; vm_compute; discriminate.
Defined.

(** ** Per-agent rollup *)

(** C5: over a frame whose columns are summable in doubles, the rollup has
    one entry for every agent name that occurs in the frame and none for any
    other; the entry of an agent reports, for each of the three columns, the
    arithmetic mean over the records of that agent as a double holds it
    (within one rounding of the quotient of the sum by the number of those
    records, and equal to it when it is an integer), and their number as
    [cases_handled], which is never zero; the entries come in the order of
    the names, and their [cases_handled] add up to the number of records. *)
Theorem agent_rollup_groups_by_agent_name (df : DataFrame) :
  summable_rows (records df) ->
  Forall (fun a =>
            let g := filter (fun r => String.eqb (agent_name r) (agent a))
                            (records df) in
            g <> []
            /\ cases_handled a = List.length g
            /\ mean_in_double (map resolution_time g) (mean_resolution_time a)
            /\ mean_in_double (map satisfaction_score g)
                              (mean_satisfaction_score a)
            /\ mean_in_double (map call_duration g) (mean_call_duration a))
         (agent_stats df)
  /\ (forall name, In name (map agent (agent_stats df))
                   <-> In name (map agent_name (records df)))
  /\ NoDup (map agent (agent_stats df))
  /\ StronglySorted (lt_of String.ltb)
                    (map agent (agent_stats df))
  /\ list_sum (map cases_handled (agent_stats df)) = len df.
Proof.
  intros _.
  assert (Hkeys : map agent (agent_stats df)
                  = sorted_keys String.ltb String.eqb
                      (map agent_name (records df))).
  { unfold agent_stats. rewrite map_map. simpl.
    rewrite <- (groupby_keys String.ltb String.eqb agent_name (records df)).
    reflexivity. }
  split; [|split; [|split; [|split]]].
  - apply Forall_forall. intros a Ha. unfold agent_stats in Ha.
    apply in_map_iff in Ha. destruct Ha as ([k g] & <- & Hin).
    apply (groupby_In String.ltb String.eqb String.eqb_eq) in Hin.
    destruct Hin as (-> & Hne & _). simpl.
    split; [exact Hne|]. split; [reflexivity|].
    split; [|split]; apply mean_in_double_mean.
  - intros name. rewrite Hkeys.
    apply (sorted_keys_In String.ltb String.eqb String.eqb_eq).
  - rewrite Hkeys.
    apply (sorted_NoDup String.ltb string_ltb_irrefl).
    apply (sorted_keys_sorted String.ltb String.eqb String.eqb_eq
             string_ltb_trans string_ltb_total).
  - rewrite Hkeys.
    apply (sorted_keys_sorted String.ltb String.eqb String.eqb_eq
             string_ltb_trans string_ltb_total).
  - unfold agent_stats. rewrite map_map. simpl.
    apply (groupby_sizes String.ltb String.eqb String.eqb_eq string_ltb_irrefl
             string_ltb_trans string_ltb_total).
Qed.

(** Two records of one agent and one of another; the first agent's
    resolution times, 15 and 10, have the mean 25/2. *)
Lemma agent_rollup_groups_by_agent_name_witness :
  Forall (fun a =>
            let g := filter (fun r => String.eqb (agent_name r) (agent a))
                            (records (new_frame agent_rows)) in
            g <> []
            /\ cases_handled a = List.length g
            /\ mean_in_double (map resolution_time g) (mean_resolution_time a)
            /\ mean_in_double (map satisfaction_score g)
                              (mean_satisfaction_score a)
            /\ mean_in_double (map call_duration g) (mean_call_duration a))
         (agent_stats (new_frame agent_rows))
  /\ (forall name, In name (map agent (agent_stats (new_frame agent_rows)))
                   <-> In name (map agent_name (records (new_frame agent_rows))))
  /\ NoDup (map agent (agent_stats (new_frame agent_rows)))
  /\ StronglySorted (lt_of String.ltb)
                    (map agent (agent_stats (new_frame agent_rows)))
  /\ list_sum (map cases_handled (agent_stats (new_frame agent_rows)))
     = len (new_frame agent_rows).
Proof.
  apply (agent_rollup_groups_by_agent_name (new_frame agent_rows)).
  repeat split; vm_compute; discriminate.
Defined.

(** ** Timestamps and dates *)

Lemma digit_value_digit n : digit_value (digit n) = Some (n mod 10).
Proof.
  unfold digit, digit_value.
  pose proof (Nat.mod_upper_bound n 10 ltac:(discriminate)) as Hlt.
  rewrite nat_ascii_embedding by lia.
  destruct (Nat.leb_spec 48 (48 + n mod 10)); [|lia].
  destruct (Nat.leb_spec (48 + n mod 10) 57); [|lia].
  simpl. f_equal. lia.
Qed.

Lemma digits_pad2 n rest :
  n < 100 -> digits 2 0 (pad2 n ++ rest) = Some (n, rest).
Proof.
  intros Hn. unfold pad2. cbn [append digits].
  rewrite !digit_value_digit. do 2 f_equal.
  pose proof (Nat.div_mod_eq n 10).
  assert (n / 10 < 10) by (apply Nat.Div0.div_lt_upper_bound; lia).
  rewrite (Nat.mod_small (n / 10)) by assumption. lia.
Qed.

Lemma digits_pad4 n rest :
  n < 100 * 100 -> digits 4 0 (pad4 n ++ rest) = Some (n, rest).
Proof.
  intros Hn. unfold pad4, pad2. cbn [append digits].
  rewrite !digit_value_digit. do 2 f_equal.
  pose proof (Nat.div_mod_eq n 10) as E1.
  pose proof (Nat.div_mod_eq (n / 10) 10) as E2.
  pose proof (Nat.div_mod_eq (n / 100) 10) as E3.
  rewrite Nat.Div0.div_div in E2. rewrite Nat.Div0.div_div in E3.
  change (10 * 10) with 100 in E2. change (100 * 10) with 1000 in E3.
  assert (n / 1000 < 10) by (apply Nat.Div0.div_lt_upper_bound; lia).
  rewrite (Nat.mod_small (n / 1000)) by assumption. lia.
Qed.

Lemma expect_literal c rest : expect c (String c rest) = Some rest.
Proof.
  unfold expect. now rewrite Ascii.eqb_refl.
Qed.

Lemma days_in_month_le y m : days_in_month y m <= 31.
Proof.
  unfold days_in_month.
  do 12 (destruct m as [|m]; [try destruct (is_leap y); lia|]). lia.
Qed.

Lemma valid_to_second dt :
  valid_datetime dt = true -> valid_datetime (to_second dt) = true.
Proof.
  unfold valid_datetime, to_second. cbn [year month day hour minute second
    microsecond]. rewrite !andb_true_iff. intros [H _]. split; [exact H|].
  reflexivity.
Qed.

(** What the script writes as a timestamp is read back as the moment it was
    written at, to the second. *)
Lemma to_datetime_strftime dt :
  valid_datetime dt = true -> to_datetime (strftime dt) = Some (to_second dt).
Proof.
  intros Hv. pose proof Hv as Hb. unfold valid_datetime in Hb.
  rewrite !andb_true_iff, !Nat.leb_le, !Nat.ltb_lt in Hb.
  destruct Hb as (((((((((Hy1 & Hy2) & Hm1) & Hm2) & Hd1) & Hd2) & Hh) & Hmi)
                   & Hs) & Hus).
  pose proof (days_in_month_le (year dt) (month dt)).
  unfold to_datetime, strftime.
  rewrite digits_pad4 by lia. cbn [and_then append]. rewrite expect_literal.
  cbn [and_then]. rewrite digits_pad2 by lia.
  cbn [and_then append]. rewrite expect_literal.
  cbn [and_then]. rewrite digits_pad2 by lia.
  cbn [and_then append]. rewrite expect_literal.
  cbn [and_then]. rewrite digits_pad2 by lia.
  cbn [and_then append]. rewrite expect_literal.
  cbn [and_then]. rewrite digits_pad2 by lia.
  cbn [and_then append]. rewrite expect_literal.
  cbn [and_then].
  replace (pad2 (second dt)) with (pad2 (second dt) ++ EmptyString)%string
    by (unfold pad2; reflexivity).
  rewrite digits_pad2 by lia. cbn [and_then].
  fold (to_second dt). now rewrite (valid_to_second dt Hv).
Qed.

Lemma to_date_strftime dt :
  valid_datetime dt = true ->
  to_date (strftime dt) = Some (mkDate (year dt) (month dt) (day dt)).
Proof.
  intros Hv. unfold to_date. now rewrite to_datetime_strftime.
Qed.

(** ** Per-day trend *)

Lemma with_date_total rows :
  Forall (fun r => to_date (timestamp r) <> None) rows ->
  exists l, with_date rows = Some l.
Proof.
  induction 1 as [|r rows Hr _ [l IH]]; simpl; [eauto|].
  destruct (to_date (timestamp r)); [|congruence].
  rewrite IH. eauto.
Qed.

Lemma with_date_dates rows : forall l d,
  with_date rows = Some l ->
  (In d (map snd l)
   <-> exists r, In r rows /\ to_date (timestamp r) = Some d).
Proof.
  induction rows as [|r rows IH]; simpl; intros l d E.
  - inversion E; subst. simpl. split; [tauto | intros (r & [] & _)].
  - destruct (to_date (timestamp r)) as [d0|] eqn:Er; [|discriminate].
    destruct (with_date rows) as [l0|]; [|discriminate].
    inversion E; subst. simpl. rewrite (IH l0 d eq_refl). split.
    + intros [<- | (r' & Hin & Hd)]; [exists r | exists r']; auto.
    + intros (r' & [<- | Hin] & Hd); [left; congruence | right; eauto].
Qed.

Lemma with_date_counts rows : forall l d,
  with_date rows = Some l ->
  List.length (filter (fun p : Row * date => date_eqb (snd p) d) l)
  = List.length (filter (on_date d) rows).
Proof.
  induction rows as [|r rows IH]; simpl; intros l d E.
  - inversion E; subst. reflexivity.
  - unfold on_date at 1.
    destruct (to_date (timestamp r)) as [d0|]; [|discriminate].
    destruct (with_date rows) as [l0|]; [|discriminate].
    inversion E; subst. simpl.
    destruct (date_eqb d0 d); simpl; now rewrite (IH l0 d eq_refl).
Qed.

(** C7: when every timestamp of the frame is read as a datetime, as every
    timestamp the script writes is, the trend is computed and has one pair
    for every calendar date that is the date of some record and none for
    any other; the count of a pair is the number of records of that date,
    never zero; the pairs come in ascending order of date, each date once,
    and the counts add up to the number of records. *)
Theorem daily_trend_counts_records_per_date (df : DataFrame) :
  Forall (fun r => to_date (timestamp r) <> None) (records df) ->
  exists trend,
    daily_counts df = Ok trend
    /\ (forall d, In d (map fst trend)
                  <-> exists r, In r (records df)
                                /\ to_date (timestamp r) = Some d)
    /\ (forall d c, In (d, c) trend ->
          0 < c /\ c = List.length (filter (on_date d) (records df)))
    /\ StronglySorted (lt_of date_ltb) (map fst trend)
    /\ NoDup (map fst trend)
    /\ list_sum (map snd trend) = len df
    /\ (forall dt, valid_datetime dt = true ->
          to_date (strftime dt) = Some (mkDate (year dt) (month dt) (day dt))).
Proof.
  intros Hread. destruct (with_date_total _ Hread) as [l El].
  unfold daily_counts. rewrite El. eexists. split; [reflexivity|].
  assert (Hkeys :
    map fst (map (fun g : date * list (Row * date) =>
                    (fst g, List.length (snd g)))
                 (groupby date_ltb date_eqb snd l))
    = sorted_keys date_ltb date_eqb (map snd l)).
  { rewrite map_map. simpl.
    apply (groupby_keys date_ltb date_eqb snd l). }
  assert (Hsorted : StronglySorted (lt_of date_ltb)
                      (sorted_keys date_ltb date_eqb (map snd l))).
  { apply (sorted_keys_sorted date_ltb date_eqb date_eqb_eq
             date_ltb_trans date_ltb_total). }
  split; [|split; [|split; [|split; [|split]]]].
  - intros d. rewrite Hkeys.
    rewrite (sorted_keys_In date_ltb date_eqb date_eqb_eq).
    apply with_date_dates. exact El.
  - intros d c Hin. apply in_map_iff in Hin.
    destruct Hin as ([k g] & E & Hin). simpl in E. inversion E; subst.
    apply (groupby_In date_ltb date_eqb date_eqb_eq) in Hin.
    destruct Hin as (-> & Hne & _). split.
    + destruct (filter _ l); [congruence | simpl; lia].
    + apply with_date_counts. exact El.
  - rewrite Hkeys. exact Hsorted.
  - rewrite Hkeys. apply (sorted_NoDup date_ltb date_ltb_irrefl). exact Hsorted.
  - rewrite map_map. simpl.
    rewrite (groupby_sizes date_ltb date_eqb date_eqb_eq date_ltb_irrefl
               date_ltb_trans date_ltb_total).
    unfold len.
    assert (Hlen : forall rows l0, with_date rows = Some l0 ->
                     List.length l0 = List.length rows).
    { induction rows as [|r rows IH]; simpl; intros l0 E.
      - inversion E; reflexivity.
      - destruct (to_date (timestamp r)); [|discriminate].
        destruct (with_date rows) as [l1|]; [|discriminate].
        inversion E; subst. simpl. f_equal. now apply IH. }
    now apply Hlen.
  - exact to_date_strftime.
Qed.

(** The trend of two complaints of one day. *)
Lemma daily_trend_counts_records_per_date_witness :
  exists trend,
    daily_counts (new_frame two_rows) = Ok trend
    /\ (forall d, In d (map fst trend)
                  <-> exists r, In r (records (new_frame two_rows))
                                /\ to_date (timestamp r) = Some d)
    /\ (forall d c, In (d, c) trend ->
          0 < c
          /\ c = List.length (filter (on_date d) (records (new_frame two_rows))))
    /\ StronglySorted (lt_of date_ltb) (map fst trend)
    /\ NoDup (map fst trend)
    /\ list_sum (map snd trend) = len (new_frame two_rows)
    /\ (forall dt, valid_datetime dt = true ->
          to_date (strftime dt) = Some (mkDate (year dt) (month dt) (day dt))).
Proof.
  apply (daily_trend_counts_records_per_date (new_frame two_rows)).
  repeat constructor; vm_compute; discriminate.
Defined.

(** ** CSV: what is written is read back *)

Lemma string_app_assoc (a b c : string) :
  ((a ++ b) ++ c = a ++ (b ++ c))%string.
Proof.
  induction a as [|x a IH]; simpl; [reflexivity | now rewrite IH].
Qed.

Lemma string_app_nil_r (a : string) : (a ++ EmptyString)%string = a.
Proof.
  induction a as [|x a IH]; simpl; [reflexivity | now rewrite IH].
Qed.

Lemma special_false c :
  special c = false ->
  Ascii.eqb c comma = false /\ Ascii.eqb c quotechar = false
  /\ Ascii.eqb c LF = false.
Proof.
  unfold special. rewrite !orb_false_iff. tauto.
Qed.

Lemma field_of_snoc f acc c :
  field_of (rev (list_ascii_of_string (String c f)) ++ acc)
  = field_of (rev (list_ascii_of_string f) ++ c :: acc).
Proof.
  simpl. now rewrite <- app_assoc.
Qed.

Lemma field_of_chars f : field_of (rev (list_ascii_of_string f) ++ []) = f.
Proof.
  unfold field_of. rewrite app_nil_r, rev_involutive.
  apply string_of_list_ascii_of_string.
Qed.

Lemma field_of_chars_cons c f :
  field_of (rev (list_ascii_of_string f) ++ [c]) = String c f.
Proof.
  unfold field_of. rewrite rev_app_distr, rev_involutive. simpl.
  now rewrite string_of_list_ascii_of_string.
Qed.

(** A field written bare is read to its separator. *)
Lemma unquoted_run f : forall acc row sep rest,
  needs_quote f = false -> is_sep sep ->
  read_records Unquoted acc row (f ++ String sep rest)
  = after sep (field_of (rev (list_ascii_of_string f) ++ acc)) row rest.
Proof.
  induction f as [|c f IH]; intros acc row sep rest Hq Hsep.
  - simpl. unfold after. destruct Hsep as [-> | ->]; reflexivity.
  - simpl in Hq. apply orb_false_iff in Hq. destruct Hq as [Hc Hq].
    destruct (special_false c Hc) as (H1 & _ & H3).
    rewrite field_of_snoc. rewrite <- (IH (c :: acc) row sep rest Hq Hsep).
    cbn [append read_records]. now rewrite H1, H3.
Qed.

(** A quoted field is read to its closing quote, doubled quotes as one. *)
Lemma quoted_run f : forall acc row sep rest,
  is_sep sep ->
  read_records Quoted acc row
    (escape f ++ String quotechar (String sep rest))
  = after sep (field_of (rev (list_ascii_of_string f) ++ acc)) row rest.
Proof.
  induction f as [|c f IH]; intros acc row sep rest Hsep.
  - simpl. unfold after. destruct Hsep as [-> | ->]; reflexivity.
  - rewrite field_of_snoc. rewrite <- (IH (c :: acc) row sep rest Hsep).
    cbn [escape]. destruct (Ascii.eqb c quotechar) eqn:E.
    + apply Ascii.eqb_eq in E. subst c. reflexivity.
    + cbn [append read_records]. now rewrite E.
Qed.

(** A field as [quote_field] writes it is read back as it was; a record
    cannot consist of one empty field, which is written as a blank line. *)
Lemma start_field f row sep rest :
  is_sep sep -> (row <> [] \/ sep = comma) ->
  read_records Start [] row (quote_field f ++ String sep rest)
  = after sep f row rest.
Proof.
  intros Hsep Hrow. unfold quote_field.
  destruct (needs_quote f) eqn:Hq.
  - cbn [append read_records]. rewrite Ascii.eqb_refl.
    rewrite string_app_assoc. cbn [append].
    rewrite quoted_run by assumption. now rewrite field_of_chars.
  - destruct f as [|c f].
    + simpl. unfold after.
      destruct Hsep as [-> | ->]; [reflexivity|].
      destruct Hrow as [Hrow | Hrow]; [|discriminate].
      destruct row; [congruence | reflexivity].
    + simpl in Hq. apply orb_false_iff in Hq. destruct Hq as [Hc Hq].
      destruct (special_false c Hc) as (H1 & H2 & H3).
      cbn [append read_records]. rewrite H1, H2, H3.
      rewrite unquoted_run by assumption. now rewrite field_of_chars_cons.
Qed.

(** A line of at least two fields is read back as one record. *)
Lemma read_line fs : forall row rest,
  fs <> [] -> (row <> [] \/ 2 <= List.length fs) ->
  read_records Start [] row (join (map quote_field fs) ++ String LF rest)
  = (rev row ++ fs) :: read_records Start [] [] rest.
Proof.
  induction fs as [|f fs IH]; intros row rest Hne Hrow; [congruence|].
  destruct fs as [|g fs].
  - cbn [map join]. rewrite start_field.
    + unfold after. reflexivity.
    + now right.
    + destruct Hrow as [Hrow | Hrow]; [now left | simpl in Hrow; lia].
  - change (join (map quote_field (f :: g :: fs)))
      with (quote_field f ++ String comma (join (map quote_field (g :: fs))))%string.
    rewrite string_app_assoc. cbn [append].
    rewrite start_field; [|now left | now right].
    unfold after. rewrite Ascii.eqb_refl.
    rewrite IH; [|discriminate | left; discriminate].
    simpl. now rewrite <- app_assoc.
Qed.

Lemma read_csv_line fs rest :
  2 <= List.length fs ->
  read_records Start [] [] (csv_line fs ++ rest)
  = fs :: read_records Start [] [] rest.
Proof.
  intros Hlen. unfold csv_line. rewrite string_app_assoc. cbn [append].
  rewrite read_line; [reflexivity | | now right].
  destruct fs; [simpl in Hlen; lia | discriminate].
Qed.

Lemma concat_lines_cons (l : string) (ls : list string) :
  String.concat EmptyString (l :: ls)
  = (l ++ String.concat EmptyString ls)%string.
Proof.
  destruct ls; simpl; [now rewrite string_app_nil_r | reflexivity].
Qed.

Lemma read_csv_lines (ls : list (list string)) :
  Forall (fun fs => 2 <= List.length fs) ls ->
  read_records Start [] [] (String.concat EmptyString (map csv_line ls)) = ls.
Proof.
  induction 1 as [|fs ls Hfs _ IH]; [reflexivity|].
  cbn [map]. rewrite concat_lines_cons, read_csv_line by assumption.
  now rewrite IH.
Qed.







(** The records of a CSV text are the header and one record for every row
    of the frame, with the columns in the order of the frame. *)
Lemma to_csv_records (df : DataFrame) :
  read_records Start [] [] (to_csv df)
  = columns df :: map (map render) (values df).
Proof.
  unfold to_csv.
  rewrite read_csv_line by (destruct df; simpl; lia).
  rewrite <- (map_map (map render) csv_line).
  rewrite read_csv_lines; [reflexivity|].
  apply Forall_forall. intros fs Hin. apply in_map_iff in Hin.
  destruct Hin as (cs & <- & Hin). rewrite length_map.
  destruct df as [rows | rows]; cbn [values] in Hin;
    apply in_map_iff in Hin; destruct Hin as (r & <- & _); simpl; lia.
Qed.




(** ** The filters of the sidebar *)

(** The script reads the three filters and uses none: a run shows and
    changes the same, whatever is chosen in them. *)
Lemma filters_change_nothing xlsx ui dates statuses agents w :
  script xlsx (set_filters ui dates statuses agents) w = script xlsx ui w.
Proof.
  destruct ui. reflexivity.
Qed.

(** C1, at the failing input: on a store of two complaints, one resolved
    and one pending, the dashboard with the status filter set to
    "Resolved" counts two complaints and lists both agents, where the
    filter of the specification keeps the one resolved complaint. *)
Lemma status_filter_is_not_applied :
  (exists m tr,
     fst (script no_workbook resolved_only used_world)
     = Ok (DashboardPage m
             [ mkAgentStats "Agent1" (num (15 # 1)) (num (4 # 1)) (num (120 # 1)) 1;
               mkAgentStats "Agent2" (num (25 # 1)) (num (3 # 1)) (num (180 # 1)) 1 ]
             tr)
     /\ total_complaints m = 2)
  /\ List.length (spec_filter resolved_only two_rows) = 1
  /\ db (snd (script no_workbook resolved_only used_world)) = db used_world.
Proof.
  split; [|split]; [|reflexivity|reflexivity].
  eexists. eexists. split; [vm_compute; reflexivity | reflexivity].
Qed.

(** ** Export *)

(** The export of a table that holds a row is the CSV text of the rows as
    read, under the header of the schema, [id] first, with one record for
    every row; nothing is written. *)
Lemma csv_export_of_stored_records xlsx ui w :
  menu_option ui = DataExport -> export_format ui = CSV ->
  generate_export ui = true -> complaints (db w) <> [] ->
  script xlsx ui w
  = (Ok (ExportPage (Some (mkDownload
           (encode_utf8 (to_csv (read_frame (complaints (db w)))))
           "call_center_data.csv" "text/csv"))), w)
  /\ read_records Start [] [] (to_csv (read_frame (complaints (db w))))
     = ("id" :: row_columns)
         :: map (map render) (values (read_frame (complaints (db w))))
  /\ List.length (values (read_frame (complaints (db w))))
     = List.length (complaints (db w)).
Proof.
  intros Hmenu Hfmt Hgen Hne. split; [|split].
  - unfold script, bind. rewrite load_frame_nonempty by assumption.
    rewrite Hmenu. unfold data_export. now rewrite Hgen, Hfmt.
  - apply to_csv_records.
  - simpl. now rewrite length_map.
Qed.

(** The CSV export of the store of two complaints. *)
Lemma csv_export_of_stored_records_witness :
  script no_workbook csv_export used_world
  = (Ok (ExportPage (Some (mkDownload
           (encode_utf8 (to_csv (read_frame (complaints (db used_world)))))
           "call_center_data.csv" "text/csv"))), used_world)
  /\ read_records Start [] [] (to_csv (read_frame (complaints (db used_world))))
     = ("id" :: row_columns)
         :: map (map render) (values (read_frame (complaints (db used_world))))
  /\ List.length (values (read_frame (complaints (db used_world))))
     = List.length (complaints (db used_world)).
Proof.
  apply (csv_export_of_stored_records no_workbook csv_export used_world);
    try reflexivity.
  vm_compute. discriminate.
Defined.

(** The CSV text of a frame without rows is its header line. *)
Lemma to_csv_empty :
  to_csv (read_frame []) = csv_line ("id" :: row_columns)
  /\ to_csv (new_frame []) = csv_line row_columns.
Proof.
  split; reflexivity.
Qed.

(** C6, at the failing input: the CSV export of a run that finds the store
    empty is the frame of the sample as built in memory, eight columns
    without [id] and three data rows; the same export on the next run, of
    the same three records as stored, has the nine columns of the schema. *)
Lemma csv_export_of_empty_store_lacks_id :
  fst (main no_workbook csv_export None (clock fresh_world) 0)
  = Ok (ExportPage (Some (mkDownload (encode_utf8
"timestamp,location,complaint_type,resolution_time,satisfaction_score,agent_name,call_duration,status
2024-03-05 09:07:03,NSW,Billing,15,4,Agent1,120,Resolved
2024-03-05 09:07:03,QLD,Service,25,3,Agent2,180,Pending
2024-03-05 09:07:03,VIC,Product,10,5,Agent3,90,Resolved
") "call_center_data.csv" "text/csv")))
  /\ fst (main no_workbook csv_export
            (Some (db (snd (main no_workbook csv_export None
                              (clock fresh_world) 0))))
            (clock fresh_world) 1)
  = Ok (ExportPage (Some (mkDownload (encode_utf8
"id,timestamp,location,complaint_type,resolution_time,satisfaction_score,agent_name,call_duration,status
1,2024-03-05 09:07:03,NSW,Billing,15.0,4,Agent1,120.0,Resolved
2,2024-03-05 09:07:03,QLD,Service,25.0,3,Agent2,180.0,Pending
3,2024-03-05 09:07:03,VIC,Product,10.0,5,Agent3,90.0,Resolved
") "call_center_data.csv" "text/csv"))).
Proof.
  split; vm_compute; reflexivity.
Qed.

(** C9, as the script has it: neither export writes or reads the store,
    and the CSV bytes are the same in every state of the database and the
    clock; the bytes of the workbook are the same in every state of the
    database too, but they are made at a moment, which the writer gets:
    [to_excel], the export page and a run of the script on it return the
    same bytes for the same frame when the workbook is written at the same
    moment.  A run on the export page over a table that holds a row writes
    nothing. *)
Theorem exports_depend_on_frame_and_moment_of_writing
        (xlsx : datetime -> string -> list string -> list (list cell)
                -> list Byte.byte)
        (ui : Inputs) (df : DataFrame) (w1 w2 : World) :
  clock w1 (ticks w1) = clock w2 (ticks w2) ->
  (fst (to_excel xlsx df w1) = fst (to_excel xlsx df w2)
   /\ snd (to_excel xlsx df w1) = w1)
  /\ (fst (data_export xlsx ui df w1) = fst (data_export xlsx ui df w2)
      /\ snd (data_export xlsx ui df w1) = w1)
  /\ (export_format ui = CSV ->
      forall w3, fst (data_export xlsx ui df w3)
                 = fst (data_export xlsx ui df w1))
  /\ (menu_option ui = DataExport ->
      complaints (db w1) <> [] ->
      complaints (db w1) = complaints (db w2) ->
      fst (script xlsx ui w1) = fst (script xlsx ui w2)
      /\ snd (script xlsx ui w1) = w1).
Proof.
  intros Hmoment.
  assert (Hpage : fst (data_export xlsx ui df w1) = fst (data_export xlsx ui df w2)
                  /\ snd (data_export xlsx ui df w1) = w1).
  { unfold data_export, bind, to_excel, ret.
    destruct (generate_export ui); [|split; reflexivity].
    destruct (export_format ui); cbn [fst snd];
      [rewrite Hmoment|]; split; reflexivity. }
  split; [|split; [exact Hpage|split]].
  - unfold to_excel. cbn [fst snd]. rewrite Hmoment. split; reflexivity.
  - intros Hcsv w3. unfold data_export, ret. rewrite Hcsv.
    destruct (generate_export ui); reflexivity.
  - intros Hmenu Hne Hsame. unfold script, bind.
    rewrite (load_frame_nonempty w1 Hne).
    rewrite (load_frame_nonempty w2) by (rewrite <- Hsame; exact Hne).
    rewrite Hmenu, <- Hsame.
    unfold data_export, bind, to_excel, ret.
    destruct (generate_export ui); [|split; reflexivity].
    destruct (export_format ui); cbn [fst snd];
      [rewrite Hmoment|]; split; reflexivity.
Qed.

(** The store of two complaints and an empty store at the same moment. *)
Lemma exports_depend_on_frame_and_moment_of_writing_witness :
  (fst (to_excel stamped_workbook (new_frame two_rows) used_world)
   = fst (to_excel stamped_workbook (new_frame two_rows) elsewhere)
   /\ snd (to_excel stamped_workbook (new_frame two_rows) used_world)
      = used_world)
  /\ (fst (data_export stamped_workbook excel_export (new_frame two_rows)
             used_world)
      = fst (data_export stamped_workbook excel_export (new_frame two_rows)
               elsewhere)
      /\ snd (data_export stamped_workbook excel_export (new_frame two_rows)
                used_world)
         = used_world)
  /\ (export_format excel_export = CSV ->
      forall w3, fst (data_export stamped_workbook excel_export
                        (new_frame two_rows) w3)
                 = fst (data_export stamped_workbook excel_export
                          (new_frame two_rows) used_world))
  /\ (menu_option excel_export = DataExport ->
      complaints (db used_world) <> [] ->
      complaints (db used_world) = complaints (db elsewhere) ->
      fst (script stamped_workbook excel_export used_world)
      = fst (script stamped_workbook excel_export elsewhere)
      /\ snd (script stamped_workbook excel_export used_world) = used_world).
Proof.
  apply (exports_depend_on_frame_and_moment_of_writing stamped_workbook
           excel_export (new_frame two_rows) used_world elsewhere).
  reflexivity.
Defined.

(** C9, the claim as stated fails: [to_excel] on the same frame, over the
    same database, returns other bytes a second later, when the writer
    stamps the workbook with the moment of writing; so does the run of the
    script on the export page. *)
Lemma workbook_differs_a_second_later :
  db a_second_later = db used_world
  /\ fst (to_excel stamped_workbook (read_frame (complaints (db used_world)))
            a_second_later)
     <> fst (to_excel stamped_workbook
               (read_frame (complaints (db used_world))) used_world)
  /\ fst (script stamped_workbook excel_export a_second_later)
     <> fst (script stamped_workbook excel_export used_world).
Proof.
  split; [reflexivity|]. split; vm_compute; discriminate.
Qed.

(** ** Every run is a history *)

Lemma execute_all_app sts1 : forall t sts2,
  fst (execute_all t (sts1 ++ sts2))
  = fst (execute_all (fst (execute_all t sts1)) sts2).
Proof.
  induction sts1 as [|st sts1 IH]; intros t sts2; simpl; [reflexivity|].
  destruct (execute t st) as [t1 ids1]. specialize (IH t1 sts2).
  destruct (execute_all t1 (sts1 ++ sts2)) as [t2 ids2].
  destruct (execute_all t1 sts1) as [t3 ids3]. simpl in *.
  exact IH.
Qed.

Lemma historical_ret {A} (a : A) : historical (ret a).
Proof. intros w. now exists []. Qed.

Lemma historical_raise {A} e : historical (@raise A e).
Proof. intros w. now exists []. Qed.

Lemma historical_bind {A B} (m : M A) (k : A -> M B) :
  historical m -> (forall a, historical (k a)) -> historical (bind m k).
Proof.
  intros Hm Hk w. unfold bind. destruct (Hm w) as [sts1 E1].
  destruct (m w) as [[a | e] w1]; simpl in E1.
  - destruct (Hk a w1) as [sts2 E2]. exists (sts1 ++ sts2).
    now rewrite execute_all_app, <- E1.
  - now exists sts1.
Qed.

Lemma historical_now : historical now.
Proof. intros w. now exists []. Qed.

Lemma historical_read_sql : historical read_sql.
Proof. intros w. now exists []. Qed.

Lemma historical_insert_data df : historical (insert_data df).
Proof.
  intros w. exists [Insert df]. unfold insert_data. simpl.
  destruct (to_sql (db w) df); reflexivity.
Qed.

Lemma historical_clear_all : historical clear_all.
Proof. intros w. now exists [DeleteAll]. Qed.

(** A run of the script changes the table by inserts and clear-alls only,
    so the keys of its rows obey the order proved of histories. *)
Lemma script_historical xlsx ui : historical (script xlsx ui).
Proof.
  assert (Hsample : historical load_sample_data).
  { apply historical_bind; [apply historical_now|].
    intros; apply historical_ret. }
  unfold script. apply historical_bind.
  - unfold load_frame. apply historical_bind; [apply historical_read_sql|].
    intros df. destruct (len df =? 0); [|apply historical_ret].
    apply historical_bind; [exact Hsample|]. intros rows.
    apply historical_bind; [apply historical_insert_data|].
    intros; apply historical_ret.
  - intros df. destruct (menu_option ui).
    + unfold dashboard. destruct (daily_counts df);
        [apply historical_ret | apply historical_raise].
    + unfold add_new_complaint. destruct (submit_complaint ui);
        [|apply historical_ret].
      apply historical_bind; [apply historical_now|]. intros dt.
      apply historical_bind; [apply historical_insert_data|].
      intros; apply historical_ret.
    + unfold data_export. destruct (generate_export ui);
        [|apply historical_ret].
      destruct (export_format ui).
      * apply historical_bind; [intros w0; now exists []|].
        intros; apply historical_ret.
      * apply historical_ret.
    + unfold database_management. destruct (String.eqb _ _);
        [|apply historical_ret].
      apply historical_bind.
      { destruct (clear_all_data ui);
          [apply historical_clear_all | apply historical_ret]. }
      intros _. apply historical_bind.
      { destruct (load_sample ui); [|apply historical_ret].
        apply historical_bind; [exact Hsample|].
        intros; apply historical_insert_data. }
      intros; apply historical_ret.
Qed.

(** ** The form *)

(** A submitted form is stored as it was filled in, with the timestamp of
    the moment: no value of the form is looked at on the way. *)
Lemma submitted_form_is_stored xlsx ui w :
  menu_option ui = AddNewComplaint -> submit_complaint ui = true ->
  complaints (db w) <> [] ->
  (high (db w) + 1 <= max_rowid)%Z ->
  exists w',
    script xlsx ui w = (Ok (FormPage true), w')
    /\ complaints (db w')
       = complaints (db w)
         ++ [ mkStored (high (db w) + 1)
                (mkRow (strftime (clock w (ticks w)))
                   (form_location ui) (form_complaint_type ui)
                   (form_resolution_time ui) (form_satisfaction_score ui)
                   (form_agent_name ui) (form_call_duration ui)
                   (form_status ui)) ].
Proof.
  intros Hmenu Hsub Hne Hfit. unfold script, bind.
  rewrite load_frame_nonempty by assumption. rewrite Hmenu.
  unfold add_new_complaint, bind, now. rewrite Hsub.
  set (r := mkRow _ _ _ _ _ _ _ _).
  destruct (insert_data_ok (mkWorld (db w) (clock w) (S (ticks w))) [r])
    as (t' & E & Hrows & _); [simpl; lia|].
  rewrite E. simpl in Hrows. eexists. split; [reflexivity|]. exact Hrows.
Qed.

(** A form submitted over the store of two complaints. *)
Lemma submitted_form_is_stored_witness :
  exists w',
    script no_workbook submit_form used_world = (Ok (FormPage true), w')
    /\ complaints (db w')
       = complaints (db used_world)
         ++ [ mkStored (high (db used_world) + 1)
                (mkRow (strftime (clock used_world (ticks used_world)))
                   (form_location submit_form) (form_complaint_type submit_form)
                   (form_resolution_time submit_form)
                   (form_satisfaction_score submit_form)
                   (form_agent_name submit_form) (form_call_duration submit_form)
                   (form_status submit_form)) ].
Proof.
  apply (submitted_form_is_stored no_workbook submit_form used_world);
    try reflexivity; vm_compute; discriminate.
Defined.

(** ** The scenario of two complaints *)

(** Two complaints of one day, by two agents, with scores 4 and 3: the
    average satisfaction is 7/2, the rollup has two entries of one case
    each, the trend one entry of two complaints. *)
Example dashboard_of_two_complaints :
  avg_satisfaction (metrics (new_frame two_rows)) = num (7 # 2)
  /\ map (fun a => (agent a, cases_handled a)) (agent_stats (new_frame two_rows))
     = [("Agent1", 1); ("Agent2", 1)]
  /\ daily_counts (new_frame two_rows) = Ok [(mkDate 2024 3 5, 2)].
Proof.
  repeat split; vm_compute; reflexivity.
Qed.

(** The CSV text of the one resolved complaint of the two: a header and one
    line, and read back it is the complaint. *)
Example csv_of_one_complaint :
  to_csv (new_frame (spec_filter resolved_only two_rows))
  = "timestamp,location,complaint_type,resolution_time,satisfaction_score,agent_name,call_duration,status
2024-03-05 09:07:03,NSW,Billing,15,4,Agent1,120,Resolved
"
  /\ List.length (read_records Start [] []
                    (to_csv (new_frame (spec_filter resolved_only two_rows))))
     = 2.
Proof.
  split; vm_compute; reflexivity.
Qed.

(** ** Keys over runs of the script *)

Lemma execute_rows t st :
  consistent t ->
  consistent (fst (execute t st))
  /\ (high t <= high (fst (execute t st)))%Z
  /\ Forall (fun s => In s (complaints t) \/ (high t < id s)%Z)
            (complaints (fst (execute t st))).
Proof.
  intros Hc. pose proof (execute_keys t st Hc) as H.
  destruct (execute t st) as [t' ids] eqn:E. simpl.
  destruct H as (Hc' & Hh & _ & _). split; [assumption|]. split; [assumption|].
  destruct st as [rows|]; simpl in E.
  - destruct (Z_le_gt_dec (high t + Z.of_nat (List.length rows)) max_rowid)
      as [Hfit | Hfull].
    + destruct (to_sql_ok rows t Hfit) as (t1 & E1 & Hrows & _).
      rewrite E1 in E. inversion E; subst. rewrite Hrows.
      apply Forall_app. split.
      * apply Forall_forall. intros s Hs. now left.
      * destruct (number_rows_ids rows (high t + 1)) as [_ Hb].
        rewrite Forall_map in Hb.
        eapply Forall_impl; [|exact Hb]. simpl. intros s Hs. right. lia.
    + destruct (to_sql t rows) as [t1|e] eqn:E1.
      * destruct rows as [|r rows].
        -- unfold to_sql in E1. inversion E1; subst. inversion E; subst.
           apply Forall_forall. intros s Hs. now left.
        -- rewrite to_sql_full in E1 by (try discriminate; lia). discriminate.
      * inversion E; subst. apply Forall_forall. intros s Hs. now left.
  - inversion E; subst. simpl. constructor.
Qed.

Lemma execute_all_rows sts : forall t,
  consistent t ->
  consistent (fst (execute_all t sts))
  /\ (high t <= high (fst (execute_all t sts)))%Z
  /\ Forall (fun s => In s (complaints t) \/ (high t < id s)%Z)
            (complaints (fst (execute_all t sts))).
Proof.
  induction sts as [|st sts IH]; intros t Hc; simpl.
  - split; [assumption|]. split; [lia|].
    apply Forall_forall. intros s Hs. now left.
  - destruct (execute_rows t st Hc) as (Hc1 & Hh1 & Hr1).
    destruct (execute t st) as [t1 ids1]. simpl in *.
    destruct (IH t1 Hc1) as (Hc2 & Hh2 & Hr2).
    destruct (execute_all t1 sts) as [t2 ids2]. simpl in *.
    split; [assumption|]. split; [lia|].
    rewrite Forall_forall in *. intros s Hs.
    destruct (Hr2 s Hs) as [Hin | Hgt]; [|right; lia].
    exact (Hr1 s Hin).
Qed.

(** Over a run of the script, whatever is clicked: a row of the table
    after the run was in the table before it or has a key above every key
    the table had held or remembered, cleared rows included. *)
Lemma run_assigns_fresh_keys xlsx ui w :
  consistent (db w) ->
  consistent (db (snd (script xlsx ui w)))
  /\ (high (db w) <= high (db (snd (script xlsx ui w))))%Z
  /\ Forall (fun s => In s (complaints (db w)) \/ (high (db w) < id s)%Z)
            (complaints (db (snd (script xlsx ui w)))).
Proof.
  intros Hc. destruct (script_historical xlsx ui w) as [sts E].
  rewrite E. now apply execute_all_rows.
Qed.

(** A form submitted over the store of two complaints: the new row has the
    key 3. *)
Lemma run_assigns_fresh_keys_witness :
  consistent (db (snd (script no_workbook submit_form used_world)))
  /\ (high (db used_world)
      <= high (db (snd (script no_workbook submit_form used_world))))%Z
  /\ Forall (fun s => In s (complaints (db used_world))
                      \/ (high (db used_world) < id s)%Z)
            (complaints (db (snd (script no_workbook submit_form used_world)))).
Proof.
  apply (run_assigns_fresh_keys no_workbook submit_form used_world).
  vm_compute. discriminate.
Defined.

(** The store of two complaints cleared in one run and seeded by the next:
    the sample is stored under the keys 3, 4 and 5. *)
Example keys_after_clear_and_seed :
  complaints (db (snd (script no_workbook clear_click used_world))) = []
  /\ map id
       (complaints
          (db (snd (script no_workbook (visit Dashboard)
                      (snd (script no_workbook clear_click used_world))))))
     = [3; 4; 5]%Z.
Proof.
  split; vm_compute; reflexivity.
Qed.

(** * Further properties of the script *)

(** ** Inserts as a whole *)

(** The table after an insert of at least one row that fits. *)
Lemma to_sql_table rows : forall t,
  rows <> [] ->
  (high t + Z.of_nat (List.length rows) <= max_rowid)%Z ->
  to_sql t rows
  = Ok (mkTable (complaints t ++ number_rows (high t + 1) rows)
                (high t + Z.of_nat (List.length rows))).
Proof.
  induction rows as [|r rows IH]; intros t Hne Hfit; [congruence|].
  rewrite to_sql_cons.
  change (List.length (r :: rows)) with (S (List.length rows)) in *.
  rewrite insert_row_ok by lia.
  destruct rows as [|r' rows].
  - reflexivity.
  - rewrite IH; [|discriminate | rewrite high_after_insert; lia].
    rewrite high_after_insert. cbn [complaints].
    rewrite <- app_assoc. cbn [app number_rows].
    do 2 f_equal. cbn [List.length]. lia.
Qed.

Lemma insert_data_table (w : World) (df : list Row) :
  df <> [] ->
  (high (db w) + Z.of_nat (List.length df) <= max_rowid)%Z ->
  insert_data df w
  = (Ok tt,
     mkWorld (mkTable (complaints (db w) ++ number_rows (high (db w) + 1) df)
                      (high (db w) + Z.of_nat (List.length df)))
             (clock w) (ticks w)).
Proof.
  intros Hne Hfit. unfold insert_data. now rewrite to_sql_table.
Qed.

(** An insert of rows whose numbers the store holds as given stores all
    its rows or none: it appends every row of the frame after the rows the
    table holds, which it leaves as they are, or it raises and the database
    is as before; it raises exactly when the frame has a row and the counter
    of rowids cannot number them all. *)
Theorem insert_data_all_or_nothing (w : World) (df : list Row) :
  Forall storable df ->
  (exists t',
     insert_data df w = (Ok tt, mkWorld t' (clock w) (ticks w))
     /\ complaints t' = complaints (db w) ++ number_rows (high (db w) + 1) df
     /\ (df = [] \/ (high (db w) + Z.of_nat (List.length df) <= max_rowid)%Z))
  \/ (insert_data df w = (Raise OperationalError, w)
      /\ df <> []
      /\ (max_rowid < high (db w) + Z.of_nat (List.length df))%Z).
Proof.
  intros _. destruct df as [|r df].
  - left. exists (db w). unfold insert_data, to_sql. simpl.
    rewrite app_nil_r. auto.
  - destruct (Z_le_gt_dec (high (db w) + Z.of_nat (List.length (r :: df)))
                max_rowid) as [Hfit | Hfull].
    + left. eexists. rewrite insert_data_table by (try discriminate; lia).
      split; [reflexivity|]. simpl. auto.
    + right. unfold insert_data.
      rewrite to_sql_full by (try discriminate; lia).
      repeat split; try discriminate; lia.
Qed.

(** The out-of-range complaint inserted into the fresh database. *)
Lemma insert_data_all_or_nothing_witness :
  (exists t',
     insert_data [out_of_range_row] fresh_world
     = (Ok tt, mkWorld t' (clock fresh_world) (ticks fresh_world))
     /\ complaints t'
        = complaints (db fresh_world)
          ++ number_rows (high (db fresh_world) + 1) [out_of_range_row]
     /\ ([out_of_range_row] = []
         \/ (high (db fresh_world) + Z.of_nat (List.length [out_of_range_row])
             <= max_rowid)%Z))
  \/ (insert_data [out_of_range_row] fresh_world
      = (Raise OperationalError, fresh_world)
      /\ [out_of_range_row] <> []
      /\ (max_rowid
          < high (db fresh_world)
            + Z.of_nat (List.length [out_of_range_row]))%Z).
Proof.
  apply (insert_data_all_or_nothing fresh_world [out_of_range_row]).
  repeat constructor; simpl; lia.
Defined.

Lemma high_after_to_sql rows t :
  rows <> [] ->
  (high t + Z.of_nat (List.length rows) <= max_rowid)%Z ->
  high (mkTable (complaints t ++ number_rows (high t + 1) rows)
                (high t + Z.of_nat (List.length rows)))
  = (high t + Z.of_nat (List.length rows))%Z.
Proof.
  intros Hne Hfit.
  destruct (to_sql_ok rows t Hfit) as (t' & E & _ & Hhigh & _).
  rewrite to_sql_table in E by assumption. inversion E; subst. exact Hhigh.
Qed.

Lemma high_after_seed (w : World) (ts : string) :
  complaints (db w) = [] ->
  (high (db w) + 3 <= max_rowid)%Z ->
  high (mkTable (number_rows (high (db w) + 1) (sample_rows ts))
                (high (db w) + 3))
  = (high (db w) + 3)%Z.
Proof.
  intros Hempty Hfit.
  pose proof (high_after_to_sql (sample_rows ts) (db w)) as Hh.
  rewrite Hempty in Hh. apply Hh; [discriminate | simpl; lia].
Qed.

(** ** The pages, one by one *)

(** The read at the top of a run over an empty table, in full. *)
Lemma load_frame_seeds (w : World) :
  complaints (db w) = [] ->
  (high (db w) + 3 <= max_rowid)%Z ->
  load_frame w
  = (Ok (new_frame (sample_rows (strftime (clock w (ticks w))))),
     mkWorld (mkTable (number_rows (high (db w) + 1)
                         (sample_rows (strftime (clock w (ticks w)))))
                      (high (db w) + 3))
             (clock w) (S (ticks w))).
Proof.
  intros Hempty Hfit.
  unfold load_frame, bind, read_sql, len, load_sample_data, bind, now, ret.
  simpl. rewrite Hempty. simpl.
  rewrite insert_data_table by (simpl; try discriminate; lia).
  simpl. now rewrite Hempty.
Qed.

(** A run in which nothing is asked of the store writes nothing when the
    table holds a row: the database, the clock and the count of its
    readings are after the run what they were before, also when the page
    fails to show. *)
Theorem idle_run_writes_nothing xlsx ui w :
  idle ui = true -> complaints (db w) <> [] ->
  snd (script xlsx ui w) = w.
Proof.
  intros Hidle Hne. unfold script, bind.
  rewrite load_frame_nonempty by assumption.
  unfold idle in Hidle. destruct (menu_option ui).
  - unfold dashboard. destruct (daily_counts _); reflexivity.
  - unfold add_new_complaint. apply negb_true_iff in Hidle.
    now rewrite Hidle.
  - unfold data_export, bind, to_excel, ret.
    destruct (generate_export ui); [|reflexivity].
    destruct (export_format ui); reflexivity.
  - unfold database_management.
    destruct (String.eqb (password ui) "admin123"); [|reflexivity].
    simpl in Hidle. apply andb_true_iff in Hidle.
    destruct Hidle as [Hc Hl]. apply negb_true_iff in Hc, Hl.
    now rewrite Hc, Hl.
Qed.

(** The dashboard of the store of two complaints. *)
Lemma idle_run_writes_nothing_witness :
  snd (script no_workbook (visit Dashboard) used_world) = used_world.
Proof.
  apply (idle_run_writes_nothing no_workbook (visit Dashboard) used_world).
  - reflexivity.
  - vm_compute. discriminate.
Defined.

(** "Clear All Data" with the password leaves the table without a row.
    Over a table that holds rows it deletes them and nothing else happens;
    over an empty table the read at the top of the run has seeded the
    sample first, so the run ends on an empty table with three keys
    used. *)
Theorem clear_all_data_empties_table xlsx ui w :
  menu_option ui = DatabaseManagement -> password ui = "admin123" ->
  clear_all_data ui = true -> load_sample ui = false ->
  (complaints (db w) <> [] \/ (high (db w) + 3 <= max_rowid)%Z) ->
  exists w',
    script xlsx ui w = (Ok (AdminPage true true false), w')
    /\ complaints (db w') = []
    /\ (complaints (db w) <> [] ->
        w' = mkWorld (delete_from_complaints (db w)) (clock w) (ticks w))
    /\ (complaints (db w) = [] ->
        sqlite_sequence (db w') = (high (db w) + 3)%Z).
Proof.
  intros Hmenu Hpw Hclear Hload Hroom. unfold script, bind.
  destruct (complaints (db w)) as [|s rows] eqn:Hrows.
  - destruct Hroom as [Hne | Hfit]; [congruence|].
    rewrite load_frame_seeds by assumption. rewrite Hmenu.
    unfold database_management, bind, clear_all, ret.
    rewrite Hpw, Hclear, Hload. simpl.
    eexists. split; [reflexivity|]. simpl. repeat split; congruence.
  - rewrite load_frame_nonempty by (rewrite Hrows; discriminate).
    rewrite Hmenu. unfold database_management, bind, clear_all, ret.
    rewrite Hpw, Hclear, Hload. simpl.
    eexists. split; [reflexivity|]. simpl. repeat split; congruence.
Qed.

(** The store of two complaints cleared. *)
Lemma clear_all_data_empties_table_witness :
  exists w',
    script no_workbook clear_click used_world
    = (Ok (AdminPage true true false), w')
    /\ complaints (db w') = []
    /\ (complaints (db used_world) <> [] ->
        w' = mkWorld (delete_from_complaints (db used_world))
                     (clock used_world) (ticks used_world))
    /\ (complaints (db used_world) = [] ->
        sqlite_sequence (db w') = (high (db used_world) + 3)%Z).
Proof.
  apply (clear_all_data_empties_table no_workbook clear_click used_world);
    try reflexivity.
  left. vm_compute. discriminate.
Defined.

(** "Load Sample Data" with the password, over a table that holds rows:
    the three sample rows, with the timestamp of the moment, are appended
    under the next three keys and the rows held before stay as they are. *)
Theorem load_sample_appends_sample xlsx ui w :
  menu_option ui = DatabaseManagement -> password ui = "admin123" ->
  clear_all_data ui = false -> load_sample ui = true ->
  complaints (db w) <> [] -> (high (db w) + 3 <= max_rowid)%Z ->
  exists w',
    script xlsx ui w = (Ok (AdminPage true false true), w')
    /\ complaints (db w')
       = complaints (db w)
         ++ number_rows (high (db w) + 1)
              (sample_rows (strftime (clock w (ticks w))))
    /\ ticks w' = S (ticks w).
Proof.
  intros Hmenu Hpw Hclear Hload Hne Hfit. unfold script, bind.
  rewrite load_frame_nonempty by assumption. rewrite Hmenu.
  unfold database_management, bind, load_sample_data, bind, now, ret.
  rewrite Hpw, Hclear, Hload. simpl.
  rewrite insert_data_table by (simpl; try discriminate; lia).
  eexists. split; [reflexivity|]. simpl. auto.
Qed.

(** The sample loaded over the store of two complaints. *)
Lemma load_sample_appends_sample_witness :
  exists w',
    script no_workbook load_click used_world
    = (Ok (AdminPage true false true), w')
    /\ complaints (db w')
       = complaints (db used_world)
         ++ number_rows (high (db used_world) + 1)
              (sample_rows (strftime (clock used_world (ticks used_world))))
    /\ ticks w' = S (ticks used_world).
Proof.
  apply (load_sample_appends_sample no_workbook load_click used_world);
    try reflexivity; vm_compute; discriminate.
Defined.

(** "Load Sample Data" over an empty table stores the sample twice: the
    read at the top of the run seeds it, and the button inserts it again,
    with the next reading of the clock, so the table ends with six rows. *)
Theorem load_sample_on_empty_store_seeds_twice xlsx ui w :
  menu_option ui = DatabaseManagement -> password ui = "admin123" ->
  clear_all_data ui = false -> load_sample ui = true ->
  complaints (db w) = [] -> (high (db w) + 6 <= max_rowid)%Z ->
  exists w',
    script xlsx ui w = (Ok (AdminPage true false true), w')
    /\ complaints (db w')
       = number_rows (high (db w) + 1)
           (sample_rows (strftime (clock w (ticks w))))
         ++ number_rows (high (db w) + 4)
              (sample_rows (strftime (clock w (S (ticks w)))))
    /\ List.length (complaints (db w')) = 6.
Proof.
  intros Hmenu Hpw Hclear Hload Hempty Hfit. unfold script, bind.
  rewrite load_frame_seeds by (try assumption; lia). rewrite Hmenu.
  unfold database_management, bind, load_sample_data, bind, now, ret.
  rewrite Hpw, Hclear, Hload. simpl.
  set (ts0 := strftime (clock w (ticks w))).
  set (ts1 := strftime (clock w (S (ticks w)))).
  pose proof (high_after_to_sql (sample_rows ts0) (db w)) as Hh.
  rewrite Hempty in Hh. simpl in Hh.
  specialize (Hh ltac:(discriminate) ltac:(lia)).
  rewrite insert_data_table; cbn [db complaints];
    [| unfold sample_rows; discriminate | rewrite Hh; simpl; lia].
  rewrite Hh.
  replace (high (db w) + 3 + 1)%Z with (high (db w) + 4)%Z by lia.
  eexists. split; [reflexivity|]. cbn [db complaints].
  split; reflexivity.
Qed.

(** The sample loaded into the fresh database. *)
Lemma load_sample_on_empty_store_seeds_twice_witness :
  exists w',
    script no_workbook load_click fresh_world
    = (Ok (AdminPage true false true), w')
    /\ complaints (db w')
       = number_rows (high (db fresh_world) + 1)
           (sample_rows (strftime (clock fresh_world (ticks fresh_world))))
         ++ number_rows (high (db fresh_world) + 4)
              (sample_rows
                 (strftime (clock fresh_world (S (ticks fresh_world)))))
    /\ List.length (complaints (db w')) = 6.
Proof.
  apply (load_sample_on_empty_store_seeds_twice no_workbook load_click
           fresh_world); try reflexivity.
  vm_compute. discriminate.
Defined.

(** A form submitted over an empty table: the read at the top of the run
    seeds the sample first, so the submitted complaint is the fourth row
    and has the fourth key; its timestamp is the next reading of the
    clock. *)
Theorem first_submission_follows_the_sample xlsx ui w :
  menu_option ui = AddNewComplaint -> submit_complaint ui = true ->
  complaints (db w) = [] -> (high (db w) + 4 <= max_rowid)%Z ->
  exists w',
    script xlsx ui w = (Ok (FormPage true), w')
    /\ complaints (db w')
       = number_rows (high (db w) + 1)
           (sample_rows (strftime (clock w (ticks w))))
         ++ [ mkStored (high (db w) + 4)
                (form_row ui (strftime (clock w (S (ticks w))))) ].
Proof.
  intros Hmenu Hsub Hempty Hfit. unfold script, bind.
  rewrite load_frame_seeds by (try assumption; lia). rewrite Hmenu.
  unfold add_new_complaint, bind, now, ret. rewrite Hsub.
  cbn [fst snd db clock ticks]. fold (form_row ui (strftime (clock w (S (ticks w))))).
  set (ts0 := strftime (clock w (ticks w))).
  set (r := form_row ui _).
  pose proof (high_after_seed w ts0 Hempty ltac:(lia)) as Hh.
  rewrite insert_data_table; cbn [db complaints];
    [| discriminate | rewrite Hh; simpl; lia].
  rewrite Hh.
  replace (high (db w) + 3 + 1)%Z with (high (db w) + 4)%Z by lia.
  eexists. split; reflexivity.
Qed.

(** The form submitted into the fresh database. *)
Lemma first_submission_follows_the_sample_witness :
  exists w',
    script no_workbook submit_form fresh_world = (Ok (FormPage true), w')
    /\ complaints (db w')
       = number_rows (high (db fresh_world) + 1)
           (sample_rows (strftime (clock fresh_world (ticks fresh_world))))
         ++ [ mkStored (high (db fresh_world) + 4)
                (form_row submit_form
                   (strftime (clock fresh_world (S (ticks fresh_world))))) ].
Proof.
  apply (first_submission_follows_the_sample no_workbook submit_form
           fresh_world); try reflexivity.
  vm_compute. discriminate.
Defined.

(** ** The dashboard over the two shapes of the frame *)

Lemma dashboard_of_records (df1 df2 : DataFrame) (w : World) :
  records df1 = records df2 ->
  fst (dashboard df1 w) = fst (dashboard df2 w).
Proof.
  intros E. unfold dashboard, daily_counts, metrics, agent_stats, len.
  rewrite E. reflexivity.
Qed.

Lemma dashboard_world (df : DataFrame) (w : World) :
  snd (dashboard df w) = w.
Proof.
  unfold dashboard. destruct (daily_counts df); reflexivity.
Qed.

Lemma dashboard_any_world (df : DataFrame) (w1 w2 : World) :
  fst (dashboard df w1) = fst (dashboard df w2).
Proof.
  unfold dashboard. destruct (daily_counts df); reflexivity.
Qed.

(** The dashboard of the run that seeds an empty table, computed on the
    sample as built in memory, is the dashboard the next run computes on
    the rows as stored. *)
Theorem seeding_dashboard_is_next_dashboard xlsx ui w :
  menu_option ui = Dashboard ->
  complaints (db w) = [] -> (high (db w) + 3 <= max_rowid)%Z ->
  fst (script xlsx ui (snd (script xlsx ui w))) = fst (script xlsx ui w)
  /\ snd (script xlsx ui (snd (script xlsx ui w))) = snd (script xlsx ui w).
Proof.
  intros Hmenu Hempty Hfit.
  assert (E1 : script xlsx ui w
               = dashboard
                   (new_frame (sample_rows (strftime (clock w (ticks w)))))
                   (snd (load_frame w))).
  { unfold script, bind. rewrite load_frame_seeds by assumption.
    now rewrite Hmenu. }
  rewrite E1, dashboard_world.
  rewrite load_frame_seeds by assumption. cbn [snd].
  set (ts := strftime (clock w (ticks w))).
  set (w1 := mkWorld _ _ _).
  assert (Hne : complaints (db w1) <> []) by (unfold w1; discriminate).
  unfold script, bind. rewrite load_frame_nonempty by assumption.
  rewrite Hmenu. split.
  - apply dashboard_of_records. unfold w1. cbn [records db complaints].
    now rewrite number_rows_fields.
  - now rewrite !dashboard_world.
Qed.

(** The dashboard opened twice on the fresh database. *)
Lemma seeding_dashboard_is_next_dashboard_witness :
  fst (script no_workbook (visit Dashboard)
         (snd (script no_workbook (visit Dashboard) fresh_world)))
  = fst (script no_workbook (visit Dashboard) fresh_world)
  /\ snd (script no_workbook (visit Dashboard)
            (snd (script no_workbook (visit Dashboard) fresh_world)))
     = snd (script no_workbook (visit Dashboard) fresh_world).
Proof.
  apply (seeding_dashboard_is_next_dashboard no_workbook (visit Dashboard)
           fresh_world); try reflexivity.
  vm_compute. discriminate.
Defined.

(** ** Timestamps stay readable *)

Lemma triple_ret {A} (I : World -> Prop) (a : A) (Q : A -> Prop) E :
  Q a -> triple I (ret a) Q E.
Proof. intros Ha w HI. now split. Qed.

Lemma triple_raise {A} (I : World -> Prop) e (Q : A -> Prop)
      (E : Exception -> Prop) :
  E e -> triple I (raise e) Q E.
Proof. intros He w HI. now split. Qed.

Lemma triple_bind {A B} (I : World -> Prop) (m : M A) (k : A -> M B)
      (Q : A -> Prop) (R : B -> Prop) E :
  triple I m Q E -> (forall a, Q a -> triple I (k a) R E) ->
  triple I (bind m k) R E.
Proof.
  intros Hm Hk w HI. unfold bind. destruct (Hm w HI) as [HI' Hres].
  destruct (m w) as [[a | e] w']; simpl in *.
  - now apply Hk.
  - now split.
Qed.

Lemma triple_weaken {A} (I : World -> Prop) (m : M A)
      (Q Q' : A -> Prop) E :
  triple I m Q E -> (forall a, Q a -> Q' a) -> triple I m Q' E.
Proof.
  intros Hm Hq w HI. destruct (Hm w HI) as [HI' Hres]. split; [assumption|].
  destruct (fst (m w)); auto.
Qed.

Lemma to_sql_Ok_rows rows : forall t t',
  to_sql t rows = Ok t' ->
  complaints t' = complaints t ++ number_rows (high t + 1) rows.
Proof.
  intros t t' E. destruct rows as [|r rows].
  - unfold to_sql in E. inversion E; subst. simpl. now rewrite app_nil_r.
  - destruct (Z_le_gt_dec (high t + Z.of_nat (List.length (r :: rows)))
                max_rowid) as [Hfit | Hfull].
    + rewrite to_sql_table in E by (try discriminate; assumption).
      inversion E; subst. reflexivity.
    + rewrite to_sql_full in E by (try discriminate; lia). discriminate.
Qed.

Lemma to_sql_Raise rows : forall t e,
  to_sql t rows = Raise e -> e = OperationalError.
Proof.
  induction rows as [|r rows IH]; intros t e E.
  - unfold to_sql in E. discriminate.
  - rewrite to_sql_cons in E. unfold insert_row in E.
    destruct (next_rowid t <=? max_rowid)%Z.
    + now apply IH in E.
    + now inversion E.
Qed.

Lemma readable_number_rows rows : forall i,
  Forall readable rows ->
  Forall (fun s => readable (fields s)) (number_rows i rows).
Proof.
  induction rows as [|r rows IH]; intros i H; simpl; [constructor|].
  inversion H; subst. constructor; auto.
Qed.

Lemma triple_now E :
  triple well_timed now (fun dt => valid_datetime dt = true) E.
Proof.
  intros w [Hclock Hrows]. split; [split; assumption|]. apply Hclock.
Qed.

Lemma triple_read_sql E :
  triple well_timed read_sql (fun df => Forall readable (records df)) E.
Proof.
  intros w [Hclock Hrows]. split; [split; assumption|]. simpl.
  now rewrite Forall_map.
Qed.

Lemma triple_insert_data rows :
  Forall readable rows ->
  triple well_timed (insert_data rows) (fun _ => True)
         (fun e => e = OperationalError).
Proof.
  intros Hr w [Hclock Hrows]. unfold insert_data.
  destruct (to_sql (db w) rows) as [t | e] eqn:E; simpl.
  - split; [|exact I]. split; [assumption|]. simpl.
    rewrite (to_sql_Ok_rows _ _ _ E). apply Forall_app. split; [assumption|].
    now apply readable_number_rows.
  - split; [now split|]. now apply to_sql_Raise in E.
Qed.

Lemma triple_clear_all E :
  triple well_timed clear_all (fun _ => True) E.
Proof.
  intros w [Hclock Hrows]. split; [|exact I]. split; [assumption|].
  simpl. constructor.
Qed.

Lemma readable_at dt (r : Row) :
  valid_datetime dt = true -> timestamp r = strftime dt -> readable r.
Proof.
  intros Hv E. unfold readable. rewrite E, to_date_strftime by assumption.
  discriminate.
Qed.

Lemma triple_load_sample_data E :
  triple well_timed load_sample_data (Forall readable) E.
Proof.
  unfold load_sample_data. eapply triple_bind; [apply triple_now|].
  intros dt Hv. apply triple_ret.
  repeat constructor; now apply (readable_at dt).
Qed.

Lemma daily_counts_readable df :
  Forall readable (records df) -> exists trend, daily_counts df = Ok trend.
Proof.
  intros Hr. destruct (with_date_total _ Hr) as [l El].
  unfold daily_counts. rewrite El. eauto.
Qed.

Lemma triple_dashboard df E :
  Forall readable (records df) ->
  triple well_timed (dashboard df) (fun _ => True) E.
Proof.
  intros Hr w HI. unfold dashboard.
  destruct (daily_counts_readable df Hr) as [trend ->]. now split.
Qed.

Lemma triple_load_frame :
  triple well_timed load_frame (fun df => Forall readable (records df))
         (fun e => e = OperationalError).
Proof.
  unfold load_frame. eapply triple_bind; [apply triple_read_sql|].
  intros df Hdf. destruct (len df =? 0); [|now apply triple_ret].
  eapply triple_bind; [apply triple_load_sample_data|].
  intros rows Hrows.
  eapply triple_bind; [now apply triple_insert_data|].
  intros _ _. now apply triple_ret.
Qed.

Lemma triple_script xlsx ui :
  triple well_timed (script xlsx ui) (fun _ => True)
         (fun e => e = OperationalError).
Proof.
  unfold script. eapply triple_bind; [apply triple_load_frame|].
  intros df Hdf. destruct (menu_option ui).
  - now apply triple_dashboard.
  - unfold add_new_complaint. destruct (submit_complaint ui);
      [|now apply triple_ret].
    eapply triple_bind; [apply triple_now|]. intros dt Hv.
    eapply triple_bind.
    + apply triple_insert_data. repeat constructor.
      now apply (readable_at dt).
    + intros _ _. now apply triple_ret.
  - unfold data_export. destruct (generate_export ui);
      [|now apply triple_ret].
    destruct (export_format ui).
    + eapply triple_bind;
        [intros w0 H0; split; [exact H0 | exact (I : (fun _ => True) _)]|].
      intros; now apply triple_ret.
    + now apply triple_ret.
  - unfold database_management.
    destruct (String.eqb (password ui) "admin123"); [|now apply triple_ret].
    eapply triple_bind.
    { destruct (clear_all_data ui);
        [apply triple_clear_all | apply (triple_ret _ _ (fun _ => True)); exact I]. }
    intros _ _. eapply triple_bind.
    { destruct (load_sample ui).
      - eapply triple_bind; [apply triple_load_sample_data|].
        intros rows Hrows. now apply triple_insert_data.
      - apply (triple_ret _ _ (fun _ => True)). exact I. }
    intros _ _. now apply triple_ret.
Qed.

(** While the clock shows datetimes that pandas reads, every timestamp a
    run stores is read back as a date: a store whose timestamps are all
    readable stays so over a run of any page, whatever is clicked, and no
    run over it fails on a timestamp; the one failure left to a run is the
    insert that finds the rowids used up. *)
Theorem script_keeps_timestamps_readable xlsx ui w :
  well_timed w ->
  well_timed (snd (script xlsx ui w))
  /\ fst (script xlsx ui w) <> Raise DateParseError
  /\ (forall e, fst (script xlsx ui w) = Raise e -> e = OperationalError).
Proof.
  intros Hw. destruct (triple_script xlsx ui w Hw) as [HI Hres].
  split; [assumption|].
  destruct (fst (script xlsx ui w)) as [page | e].
  - split; [discriminate|]. intros e' He'. discriminate.
  - subst e. split; [discriminate|].
    intros e' He'. now inversion He'.
Qed.

(** A form submitted over the store of two complaints. *)
Lemma script_keeps_timestamps_readable_witness :
  well_timed (snd (script no_workbook submit_form used_world))
  /\ fst (script no_workbook submit_form used_world) <> Raise DateParseError
  /\ (forall e, fst (script no_workbook submit_form used_world) = Raise e ->
                e = OperationalError).
Proof.
  apply (script_keeps_timestamps_readable no_workbook submit_form used_world).
  split.
  - intros n. reflexivity.
  - repeat constructor; vm_compute; discriminate.
Defined.

(** ** Averages within the range of their values *)




(** ** The tabs of the dashboard agree *)

Lemma with_date_length rows : forall l,
  with_date rows = Some l -> List.length l = List.length rows.
Proof.
  induction rows as [|r rows IH]; simpl; intros l E.
  - inversion E; reflexivity.
  - destruct (to_date (timestamp r)); [|discriminate].
    destruct (with_date rows) as [l0|]; [|discriminate].
    inversion E; subst. simpl. f_equal. now apply IH.
Qed.

Lemma script_dashboard_page xlsx ui w m st tr :
  fst (script xlsx ui w) = Ok (DashboardPage m st tr) ->
  exists df,
    records df <> [] /\ daily_counts df = Ok tr
    /\ m = metrics df /\ st = agent_stats df.
Proof.
  unfold script, bind.
  destruct (load_frame w) as [[df | e] w'] eqn:E; [|discriminate].
  apply load_frame_records in E.
  destruct (menu_option ui).
  - unfold dashboard. destruct (daily_counts df) as [tr' | e] eqn:Ed;
      [|discriminate].
    simpl. intros H. inversion H; subst. exists df. auto.
  - unfold add_new_complaint, bind, now, insert_data, ret.
    destruct (submit_complaint ui); simpl; [|discriminate].
    case_to_sql; discriminate.
  - unfold data_export, to_excel, bind, ret.
    destruct (generate_export ui); [|discriminate].
    destruct (export_format ui); discriminate.
  - unfold database_management, bind, ret.
    destruct (String.eqb _ _); [|discriminate].
    destruct (clear_all_data ui); simpl;
      (destruct (load_sample ui); simpl;
       [unfold load_sample_data, bind, now, ret, insert_data; simpl;
        case_to_sql; discriminate | discriminate]).
Qed.

(** Over a store whose timestamps are all of the form the script writes,
    under a clock that shows such moments, a visit of the dashboard shows
    the page, unless the seeding of an empty table finds the rowids used
    up; and the three tabs of the page a run shows count the same
    complaints: the total of the metrics is the sum of the cases handled
    over the agents and the sum of the daily counts, and it is not zero. *)
Theorem dashboard_tabs_agree xlsx ui w :
  well_timed w ->
  (menu_option ui = Dashboard ->
   fst (script xlsx ui w) = Raise OperationalError
   \/ exists m st tr, fst (script xlsx ui w) = Ok (DashboardPage m st tr))
  /\ (forall m st tr,
        fst (script xlsx ui w) = Ok (DashboardPage m st tr) ->
        total_complaints m = list_sum (map cases_handled st)
        /\ total_complaints m = list_sum (map snd tr)
        /\ 0 < total_complaints m).
Proof.
  intros Hw. split.
  { intros Hmenu. destruct (triple_script xlsx ui w Hw) as [_ Hres].
    revert Hres. unfold script, bind.
    destruct (load_frame w) as [[df | e] w'] eqn:E.
    - rewrite Hmenu. unfold dashboard.
      destruct (daily_counts df) as [tr | e]; simpl.
      + intros _. right. repeat eexists.
      + intros ->. now left.
    - simpl. intros ->. now left. }
  intros m st tr E.
  destruct (script_dashboard_page _ _ _ _ _ _ E) as (df & Hne & Hd & -> & ->).
  unfold metrics. cbn [total_complaints]. split; [|split].
  - unfold agent_stats. rewrite map_map. simpl. symmetry.
    apply (groupby_sizes String.ltb String.eqb String.eqb_eq string_ltb_irrefl
             string_ltb_trans string_ltb_total).
  - unfold daily_counts in Hd.
    destruct (with_date (records df)) as [l|] eqn:El; [|discriminate].
    inversion Hd; subst. rewrite map_map. simpl.
    rewrite (groupby_sizes date_ltb date_eqb date_eqb_eq date_ltb_irrefl
               date_ltb_trans date_ltb_total).
    unfold len. symmetry. now apply with_date_length.
  - unfold len. destruct (records df); [congruence | simpl; lia].
Qed.

(** The dashboard over the store of two complaints. *)
Lemma dashboard_tabs_agree_witness :
  (menu_option (visit Dashboard) = Dashboard ->
   fst (script no_workbook (visit Dashboard) used_world) = Raise OperationalError
   \/ exists m st tr,
        fst (script no_workbook (visit Dashboard) used_world)
        = Ok (DashboardPage m st tr))
  /\ (forall m st tr,
        fst (script no_workbook (visit Dashboard) used_world)
        = Ok (DashboardPage m st tr) ->
        total_complaints m = list_sum (map cases_handled st)
        /\ total_complaints m = list_sum (map snd tr)
        /\ 0 < total_complaints m).
Proof.
  apply (dashboard_tabs_agree no_workbook (visit Dashboard) used_world).
  split.
  - intros n. reflexivity.
  - repeat constructor; vm_compute; discriminate.
Defined.

(** ** The bytes of a CSV export without quoting *)














(** ** Keys are unique *)

Lemma ids_below_largest rows :
  Forall (fun i => i <= largest_id rows)%Z (map id rows).
Proof.
  induction rows as [|r rows IH]; simpl; constructor; [lia|].
  eapply Forall_impl; [|exact IH]. simpl. intros; lia.
Qed.

Lemma keyed_execute t st : keyed t -> keyed (fst (execute t st)).
Proof.
  intros [Hc Hs]. split.
  - pose proof (execute_keys t st Hc) as H.
    destruct (execute t st). simpl. tauto.
  - destruct st as [rows|]; simpl; [|constructor].
    destruct (to_sql t rows) as [t'|e] eqn:E; simpl; [|assumption].
    rewrite (to_sql_Ok_rows _ _ _ E), map_app.
    destruct (number_rows_ids rows (high t + 1)) as [Hs' Hb].
    apply StronglySorted_app_lt with (m := high t); auto.
    + eapply Forall_impl; [|apply ids_below_largest]. simpl.
      unfold high. intros; lia.
    + eapply Forall_impl; [|exact Hb]. simpl. intros; lia.
Qed.

Lemma keyed_execute_all sts : forall t,
  keyed t -> keyed (fst (execute_all t sts)).
Proof.
  induction sts as [|st sts IH]; intros t Hk; simpl; [assumption|].
  pose proof (keyed_execute t st Hk) as H1.
  destruct (execute t st) as [t1 ids1]. simpl in H1.
  specialize (IH t1 H1). destruct (execute_all t1 sts). exact IH.
Qed.

Lemma keyed_script xlsx ui w :
  keyed (db w) -> keyed (db (snd (script xlsx ui w))).
Proof.
  intros Hk. destruct (script_historical xlsx ui w) as [sts E].
  rewrite E. now apply keyed_execute_all.
Qed.

(** The key is a key: after any runs of the script on a database that
    started without the table, whatever was clicked in them and whatever
    the clock showed, no two rows of the table have the same [id], the rows
    are held in ascending order of [id], and no [id] is above the counter
    of the table. *)
Theorem ids_unique_after_any_runs xlsx uis clock ticks :
  NoDup (map id (complaints
                   (db (runs xlsx uis (mkWorld (init_db None) clock ticks)))))
  /\ keyed (db (runs xlsx uis (mkWorld (init_db None) clock ticks))).
Proof.
  assert (G : forall w, keyed (db w) -> keyed (db (runs xlsx uis w))).
  { induction uis as [|ui uis IH]; intros w Hk; simpl; [assumption|].
    apply IH. now apply keyed_script. }
  assert (K : keyed (db (runs xlsx uis (mkWorld (init_db None) clock ticks)))).
  { apply G. split; [unfold consistent; simpl; lia | constructor]. }
  split; [|exact K]. destruct K as [_ Hs]. revert Hs.
  generalize (map id (complaints
    (db (runs xlsx uis (mkWorld (init_db None) clock ticks))))).
  intros l Hs. induction Hs as [|a l Hs IH Ha]; constructor; auto.
  intros Hin. rewrite Forall_forall in Ha. specialize (Ha _ Hin). lia.
Qed.

(** ** The export of the run that seeds the store *)

(** On a run that finds the table empty, either export is made from the
    sample as built in memory and not from the rows as stored: its header
    is the eight columns without [id], for the workbook and for the CSV
    text alike, and its rows carry no key. *)
Theorem export_of_seeding_run_has_no_id xlsx ui w :
  menu_option ui = DataExport -> generate_export ui = true ->
  complaints (db w) = [] -> (high (db w) + 3 <= max_rowid)%Z ->
  exists bytes name type_,
    fst (script xlsx ui w) = Ok (ExportPage (Some (mkDownload bytes name type_)))
    /\ bytes
       = match export_format ui with
         | Excel =>
             xlsx (clock w (S (ticks w))) "Complaints" row_columns
               (values (new_frame (sample_rows (strftime (clock w (ticks w))))))
         | CSV =>
             encode_utf8
               (to_csv (new_frame (sample_rows (strftime (clock w (ticks w))))))
         end
    /\ ~ In "id" row_columns
    /\ read_records Start [] []
         (to_csv (new_frame (sample_rows (strftime (clock w (ticks w))))))
       = row_columns
           :: map (map render)
                (values (new_frame (sample_rows (strftime (clock w (ticks w)))))).
Proof.
  intros Hmenu Hgen Hempty Hfit. unfold script, bind.
  rewrite load_frame_seeds by assumption. rewrite Hmenu.
  unfold data_export, bind, to_excel, ret. rewrite Hgen.
  destruct (export_format ui); cbn [fst].
  - do 3 eexists. split; [reflexivity|]. split; [reflexivity|]. split.
    + unfold row_columns. simpl. intuition discriminate.
    + apply (to_csv_records (new_frame _)).
  - do 3 eexists. split; [reflexivity|]. split; [reflexivity|]. split.
    + unfold row_columns. simpl. intuition discriminate.
    + apply (to_csv_records (new_frame _)).
Qed.

(** The Excel export of the fresh database. *)
Lemma export_of_seeding_run_has_no_id_witness :
  exists bytes name type_,
    fst (script no_workbook excel_export fresh_world)
    = Ok (ExportPage (Some (mkDownload bytes name type_)))
    /\ bytes
       = match export_format excel_export with
         | Excel =>
             no_workbook (clock fresh_world (S (ticks fresh_world)))
               "Complaints" row_columns
               (values (new_frame (sample_rows
                  (strftime (clock fresh_world (ticks fresh_world))))))
         | CSV =>
             encode_utf8
               (to_csv (new_frame (sample_rows
                  (strftime (clock fresh_world (ticks fresh_world))))))
         end
    /\ ~ In "id" row_columns
    /\ read_records Start [] []
         (to_csv (new_frame (sample_rows
            (strftime (clock fresh_world (ticks fresh_world))))))
       = row_columns
           :: map (map render)
                (values (new_frame (sample_rows
                   (strftime (clock fresh_world (ticks fresh_world)))))).
Proof.
  apply (export_of_seeding_run_has_no_id no_workbook excel_export fresh_world);
    try reflexivity.
  vm_compute. discriminate.
Defined.

(** ** Timestamps *)

(** The text the script writes for a moment is read back as that moment
    to the second: the microseconds of the clock are not written.  So two
    moments have the same text exactly when they are in the same second. *)
Theorem timestamp_round_trip (dt : datetime) :
  valid_datetime dt = true ->
  to_datetime (strftime dt) = Some (to_second dt)
  /\ String.length (strftime dt) = 19
  /\ (forall dt', valid_datetime dt' = true ->
        (strftime dt' = strftime dt <-> to_second dt' = to_second dt)).
Proof.
  intros Hv. split; [now apply to_datetime_strftime|]. split; [reflexivity|].
  intros dt' Hv'. split.
  - intros E.
    apply to_datetime_strftime in Hv. apply to_datetime_strftime in Hv'.
    rewrite E in Hv'. congruence.
  - intros E.
    change (strftime (to_second dt') = strftime (to_second dt)).
    now rewrite E.
Qed.

(** Eight o'clock and 125 microseconds on the sixth of March 2024. *)
Lemma timestamp_round_trip_witness :
  to_datetime (strftime (mkDatetime 2024 3 6 8 0 0 125))
  = Some (to_second (mkDatetime 2024 3 6 8 0 0 125))
  /\ String.length (strftime (mkDatetime 2024 3 6 8 0 0 125)) = 19
  /\ (forall dt', valid_datetime dt' = true ->
        (strftime dt' = strftime (mkDatetime 2024 3 6 8 0 0 125)
         <-> to_second dt' = to_second (mkDatetime 2024 3 6 8 0 0 125))).
Proof.
  apply (timestamp_round_trip (mkDatetime 2024 3 6 8 0 0 125)).
  reflexivity.
Defined.
